(** * pdf2text: the extraction strategy of [PDFConverter] and its CLI driver

    A shallow embedding of [src/pdf2text.py].  The program is a thin layer
    over three libraries (pathlib, PyPDF2, pdfplumber) and the file system.
    What the program itself does is modelled concretely and executably; what
    the libraries and the file system answer is a parameter of the model:

    - [Pathlib] is the interface of the [pathlib.Path] operations the program
      uses; nothing is assumed about how a suffix or a stem is computed;
    - [World] holds what the file system and the two PDF backends answer for
      a given path.  It is fixed during a run: the same question gets the
      same answer (the backends are opaque, deterministic page producers,
      and the files a run writes are not among its inputs);
    - [state] holds what a run changes or what we observe of it: the files
      written, the two output streams, and a log of function entries (the
      call-count instrumentation).

    A computation is a function [state -> (exn + A) * state]: Python
    exceptions do not roll the state back, so the state survives a raise. *)

From Stdlib Require Import List NArith Arith Bool String Ascii DecimalString Lia.
Import ListNotations.

Set Implicit Arguments.
Local Open Scope list_scope.

(* ===================================================================== *)
(** ** Python strings *)
(* ===================================================================== *)

(** A Python [str] is a sequence of Unicode code points. *)
Definition str := list N.

(** A literal of the source, written in ASCII. *)
Definition lit (s : string) : str :=
  map N_of_ascii (list_ascii_of_string s).

Fixpoint str_eqb (a b : str) : bool :=
  match a, b with
  | [], [] => true
  | x :: a', y :: b' => N.eqb x y && str_eqb a' b'
  | _, _ => false
  end.

(** [str.isspace] on one code point: the code points CPython's
    [_PyUnicode_IsWhitespace] accepts. *)
Definition isspace (c : N) : bool :=
  ((9 <=? c) && (c <=? 13) ||
   (28 <=? c) && (c <=? 32) ||
   (c =? 133) || (c =? 160) || (c =? 5760) ||
   (8192 <=? c) && (c <=? 8202) ||
   (c =? 8232) || (c =? 8233) || (c =? 8239) || (c =? 8287) ||
   (c =? 12288))%N.

Fixpoint lstrip (s : str) : str :=
  match s with
  | c :: r => if isspace c then lstrip r else s
  | [] => []
  end.

Definition rstrip (s : str) : str := rev (lstrip (rev s)).

(** [s.strip()] *)
Definition strip (s : str) : str := rstrip (lstrip s).

(** [s.lower()], exact on ASCII.  Code points outside ASCII are left as they
    are; the program only compares the result with ['.pdf'], and no code
    point outside ASCII lowercases to ['.'], ['p'], ['d'] or ['f'], so the
    comparison is not affected. *)
Definition lower_char (c : N) : N :=
  (if (65 <=? c) && (c <=? 90) then c + 32 else c)%N.

Definition lower (s : str) : str := map lower_char s.

(** [sep.join(l)] *)
Fixpoint join (sep : str) (l : list str) : str :=
  match l with
  | [] => []
  | x :: r =>
      match r with
      | [] => x
      | _ :: _ => x ++ sep ++ join sep r
      end
  end.

(** [f"{n}"] for a non-negative [int]. *)
Definition str_of_nat (n : nat) : str :=
  lit (NilZero.string_of_uint (Nat.to_uint n)).

(** Truth value of a [str]: non-empty. *)
Definition truthy (s : str) : bool :=
  match s with [] => false | _ :: _ => true end.

(** [if o:] for an [Optional[str]] option value: the value the branch sees
    when it is taken. *)
Definition if_given (o : option str) : option str :=
  match o with
  | Some s => if truthy s then Some s else None
  | None => None
  end.

Definition newline : str := [10%N].

(* ===================================================================== *)
(** ** Python dicts with [str] keys *)
(* ===================================================================== *)

(** A [dict] keeps its keys in insertion order; assigning to a key that is
    present replaces the value in place. *)
Definition dict (V : Type) := list (str * V).

Fixpoint dict_get {V} (k : str) (d : dict V) : option V :=
  match d with
  | [] => None
  | (k', v) :: r => if str_eqb k k' then Some v else dict_get k r
  end.

(** [d[k] = v] *)
Fixpoint dict_set {V} (k : str) (v : V) (d : dict V) : dict V :=
  match d with
  | [] => [(k, v)]
  | (k', v') :: r =>
      if str_eqb k k' then (k', v) :: r else (k', v') :: dict_set k v r
  end.

Definition keys {V} (d : dict V) : list str := map fst d.
Definition values {V} (d : dict V) : list V := map snd d.

(* ===================================================================== *)
(** ** Exceptions *)
(* ===================================================================== *)

(** The exceptions that occur.  [LibraryError msg] stands for an exception
    raised inside a library call (PyPDF2, pdfplumber, [open], [write_text],
    [mkdir]): an instance of some subclass of [Exception] with
    [str(e) = msg].  [SystemExit] is the one class here that is not a
    subclass of [Exception]. *)
Inductive exn : Type :=
| FileNotFoundError (msg : str)
| ValueError (msg : str)
| Exception (msg : str)
| KeyError (key : str)
| LibraryError (msg : str)
| SystemExit (code : N).

(** [isinstance(e, Exception)] *)
Definition is_Exception (e : exn) : bool :=
  match e with SystemExit _ => false | _ => true end.

(** [str(e)].  For [KeyError] it is the [repr] of the key, written out for
    keys without quotes or escapes (the keys of this program). *)
Definition str_exn (e : exn) : str :=
  match e with
  | FileNotFoundError msg | ValueError msg | Exception msg
  | LibraryError msg => msg
  | KeyError k => lit "'" ++ k ++ lit "'"
  | SystemExit c => str_of_nat (N.to_nat c)
  end.

(** What a library call answers: [inl msg] when it raises an exception [e]
    with [str(e) = msg], [inr a] when it returns [a]. *)
Definition lib (A : Type) : Type := (str + A)%type.

(* ===================================================================== *)
(** ** The libraries and the file system, as the program sees them *)
(* ===================================================================== *)

(** The operations of [pathlib.Path] the program uses. *)
Class Pathlib (Path : Type) : Type := {
  Path_ : str -> Path;              (* Path(s) *)
  str_path : Path -> str;           (* str(p), also f"{p}" *)
  suffix : Path -> str;             (* p.suffix *)
  stem : Path -> str;               (* p.stem *)
  truediv : Path -> str -> Path     (* p / name *)
}.

Inductive file_kind : Type := RegularFile | Directory | OtherFile.

(** What the world outside the program answers.  A PDF backend answers
    either by raising when the document is opened, or with the document's
    pages, each of which raises or yields its text when asked to extract
    ([str] for PyPDF2, [Optional[str]] for pdfplumber).  For PyPDF2 the
    opening is [open(pdf_path, 'rb')], [PdfReader(file)] and
    [len(pdf_reader.pages)] together; for pdfplumber it is
    [pdfplumber.open(pdf_path)] and [pdf.pages].  [write_text_raises] and
    [mkdir_raises] give the message of the exception when the call raises.
    [Path.write_text] opens the file for writing and then writes, so a
    write that raises need not leave the file as it was:
    [write_text_leaves] gives what the file holds after a write that raised
    ([None] when it was not touched, the empty or truncated content
    otherwise).  The progress bar of tqdm writes to the error stream when
    it is made, after an item, and when it is closed; what it writes for a
    description, a count and a total is [tqdm_refresh] and [tqdm_close]
    (the text depends on the terminal and the clock, and may be nothing).
    Exceptions outside the [Exception] hierarchy (an interrupt) and access
    rights are not part of the model. *)
Record World (Path : Type) : Type := {
  stat : Path -> option file_kind;
  glob : Path -> str -> list Path;
  PyPDF2_PdfReader : Path -> lib (list (lib str));
  pdfplumber_open : Path -> lib (list (lib (option str)));
  write_text_raises : Path -> str -> option str;
  write_text_leaves : Path -> str -> option str;
  mkdir_raises : Path -> option str;
  tqdm_refresh : str -> nat -> nat -> list str;
  tqdm_close : str -> nat -> nat -> list str
}.

(** The functions whose entries are logged. *)
Inductive fn : Type :=
| fn_convert
| fn_extract_with_pypdf2
| fn_extract_with_pdfplumber.

Definition fn_eqb (f g : fn) : bool :=
  match f, g with
  | fn_convert, fn_convert
  | fn_extract_with_pypdf2, fn_extract_with_pypdf2
  | fn_extract_with_pdfplumber, fn_extract_with_pdfplumber => true
  | _, _ => false
  end.

(** What a run changes: the log of function entries (oldest first), the
    files [write_text] calls have set (by [str] of their path, with what
    they hold), and what was written to the two streams, piece by piece
    (the lines of [click.echo], the writes of the progress bar). *)
Record state (Path : Type) : Type := {
  calls : list (fn * Path);
  files : dict str;
  stdout : list str;
  stderr : list str
}.

Definition init_state {Path} : state Path :=
  {| calls := []; files := []; stdout := []; stderr := [] |}.

(** The arguments of a call, in log order. *)
Definition calls_of {Path} (f : fn) (st : state Path) : list Path :=
  map snd (filter (fun c => fn_eqb (fst c) f) (calls st)).

(** [PDFConverter]: its only attribute is the method string. *)
Record PDFConverter : Type := { method : str }.

(** [PDFConverter.__init__] *)
Definition PDFConverter_init (method : str) : PDFConverter :=
  {| method := method |}.

(** The CLI's decoded arguments. *)
Record Args : Type := {
  arg_input_path : str;
  arg_output : option str;
  arg_method : str;
  arg_recursive : bool;
  arg_verbose : bool
}.

(* ===================================================================== *)
(** ** Computations: state and exceptions *)
(* ===================================================================== *)

Section Computations.
Context {Path : Type}.

Definition M (A : Type) : Type := state Path -> (exn + A) * state Path.

Definition ret {A} (a : A) : M A := fun st => (inr a, st).

Definition bind {A B} (m : M A) (k : A -> M B) : M B :=
  fun st =>
    match m st with
    | (inr a, st') => k a st'
    | (inl e, st') => (inl e, st')
    end.

Definition raise {A} (e : exn) : M A := fun st => (inl e, st).

(** [try: body except: handler] *)
Definition try_except {A} (body : M A) (handler : exn -> M A) : M A :=
  fun st =>
    match body st with
    | (inl e, st') => handler e st'
    | r => r
    end.

(** [try: body except Exception as e: handler] *)
Definition try_except_Exception {A} (body : M A) (handler : exn -> M A) : M A :=
  fun st =>
    match body st with
    | (inl e, st') => if is_Exception e then handler e st' else (inl e, st')
    | r => r
    end.

(** A library call inside the program. *)
Definition lib_call {A} (r : lib A) : M A :=
  match r with
  | inl msg => raise (LibraryError msg)
  | inr a => ret a
  end.

Definition log_call (f : fn) (p : Path) : M unit :=
  fun st =>
    (inr tt, {| calls := calls st ++ [(f, p)]; files := files st;
                stdout := stdout st; stderr := stderr st |}).

(** [click.echo(line)] and [click.echo(line, err=True)] *)
Definition echo (line : str) : M unit :=
  fun st =>
    (inr tt, {| calls := calls st; files := files st;
                stdout := stdout st ++ [line]; stderr := stderr st |}).

Definition echo_err (line : str) : M unit :=
  fun st =>
    (inr tt, {| calls := calls st; files := files st;
                stdout := stdout st; stderr := stderr st ++ [line] |}).

(** Writes to [sys.stderr], as the progress bar does. *)
Definition write_stderr (pieces : list str) : M unit :=
  fun st =>
    (inr tt, {| calls := calls st; files := files st;
                stdout := stdout st; stderr := stderr st ++ pieces |}).

(** [sys.exit(code)] *)
Definition sys_exit {A} (code : N) : M A := raise (SystemExit code).

(** [d[k]] *)
Definition getitem {V} (k : str) (d : dict V) : M V :=
  match dict_get k d with
  | Some v => ret v
  | None => raise (KeyError k)
  end.

(** What a computation returns or raises, and the state it leaves. *)
Definition result {A} (m : M A) (st : state Path) : exn + A := fst (m st).
Definition after {A} (m : M A) (st : state Path) : state Path := snd (m st).
End Computations.

Arguments M : clear implicits.

Declare Scope py_scope.
Delimit Scope py_scope with py.
Notation "x <- m ;; k" := (bind m (fun x => k))
  (at level 61, m at next level, right associativity) : py_scope.
Notation "m ;; k" := (bind m (fun _ => k))
  (at level 61, right associativity) : py_scope.
Local Open Scope py_scope.

(* ===================================================================== *)
(** ** [PDFConverter] *)
(* ===================================================================== *)

Section Converter.
Context {Path : Type} {pathlib : Pathlib Path}.
Variable w : World Path.

(** [p.exists()], [p.is_file()], [p.is_dir()] *)
Definition exists_ (p : Path) : bool :=
  match stat w p with Some _ => true | None => false end.
Definition is_file (p : Path) : bool :=
  match stat w p with Some RegularFile => true | _ => false end.
Definition is_dir (p : Path) : bool :=
  match stat w p with Some Directory => true | _ => false end.

(** A completed write: the text is stored under the path, replacing what
    was there. *)
Definition store (p : Path) (text : str) : M Path unit :=
  fun st =>
    (inr tt, {| calls := calls st;
                files := dict_set (str_path p) text (files st);
                stdout := stdout st; stderr := stderr st |}).

(** What a write that raises does to the file before it raises. *)
Definition spoil (p : Path) (text : str) : M Path unit :=
  match write_text_leaves w p text with
  | Some content => store p content
  | None => ret tt
  end.

(** [p.write_text(text, encoding='utf-8')]: the file is opened for writing
    and the text written; when this raises, the file is left as
    [write_text_leaves] says. *)
Definition write_text (p : Path) (text : str) : M Path unit :=
  match write_text_raises w p text with
  | Some msg => spoil p text ;; raise (LibraryError msg)
  | None => store p text
  end.

(** [p.mkdir(parents=True, exist_ok=True)] *)
Definition mkdir (p : Path) : M Path unit :=
  match mkdir_raises w p with
  | Some msg => raise (LibraryError msg)
  | None => ret tt
  end.

(** The loop of [extract_with_pypdf2]: [text] is the list built so far. *)
Fixpoint pypdf2_loop (pages : list (lib str)) (text : list str) : M Path (list str) :=
  match pages with
  | [] => ret text
  | page :: rest =>
      page_text <- lib_call page ;;
      pypdf2_loop rest (text ++ [page_text])
  end.

Definition extract_with_pypdf2 (self : PDFConverter) (pdf_path : Path) : M Path str :=
  log_call fn_extract_with_pypdf2 pdf_path ;;
  try_except_Exception
    (pdf_reader <- lib_call (PyPDF2_PdfReader w pdf_path) ;;
     text <- pypdf2_loop pdf_reader [] ;;
     ret (join newline text))
    (fun e => raise (Exception (lit "PyPDF2 extraction failed: " ++ str_exn e))).

(** The loop of [extract_with_pdfplumber]: a page's text is appended only
    when it is truthy. *)
Fixpoint pdfplumber_loop (pages : list (lib (option str))) (text : list str)
  : M Path (list str) :=
  match pages with
  | [] => ret text
  | page :: rest =>
      page_text <- lib_call page ;;
      match page_text with
      | Some t =>
          if truthy t then pdfplumber_loop rest (text ++ [t])
          else pdfplumber_loop rest text
      | None => pdfplumber_loop rest text
      end
  end.

Definition extract_with_pdfplumber (self : PDFConverter) (pdf_path : Path) : M Path str :=
  log_call fn_extract_with_pdfplumber pdf_path ;;
  try_except_Exception
    (pdf <- lib_call (pdfplumber_open w pdf_path) ;;
     text <- pdfplumber_loop pdf [] ;;
     ret (join newline text))
    (fun e => raise (Exception (lit "pdfplumber extraction failed: " ++ str_exn e))).

Definition convert (self : PDFConverter) (pdf_path : Path) : M Path str :=
  log_call fn_convert pdf_path ;;
  if negb (exists_ pdf_path) then
    raise (FileNotFoundError (lit "PDF file not found: " ++ str_path pdf_path))
  else if negb (str_eqb (lower (suffix pdf_path)) (lit ".pdf")) then
    raise (ValueError (lit "File must be a PDF: " ++ str_path pdf_path))
  else if str_eqb (method self) (lit "pypdf2") then
    extract_with_pypdf2 self pdf_path
  else if str_eqb (method self) (lit "pdfplumber") then
    extract_with_pdfplumber self pdf_path
  else
    try_except
      (text <- extract_with_pdfplumber self pdf_path ;;
       if negb (truthy (strip text)) then extract_with_pypdf2 self pdf_path
       else ret text)
      (fun _ => extract_with_pypdf2 self pdf_path).

(** One report entry is a small dict. *)
Definition entry : Type := dict str.

(** [text[:200] + '...' if len(text) > 200 else text] *)
Definition preview (text : str) : str :=
  if 200 <? List.length text then firstn 200 text ++ lit "..." else text.

(** The body of the loop of [batch_convert]. *)
Definition batch_step (self : PDFConverter) (output_dir : option Path)
    (results : dict entry) (pdf_path : Path) : M Path (dict entry) :=
  try_except_Exception
    (text <- convert self pdf_path ;;
     match output_dir with
     | Some dir =>
         let output_path := truediv dir (stem pdf_path ++ lit ".txt") in
         write_text output_path text ;;
         ret (dict_set (str_path pdf_path)
                [(lit "status", lit "success");
                 (lit "output", str_path output_path)] results)
     | None =>
         ret (dict_set (str_path pdf_path)
                [(lit "status", lit "success");
                 (lit "text", preview text)] results)
     end)
    (fun e =>
       ret (dict_set (str_path pdf_path)
              [(lit "status", lit "error"); (lit "error", str_exn e)] results)).

(** The description of the progress bar. *)
Definition tqdm_desc : str := lit "Converting PDFs".

(** The loop [for pdf_path in tqdm(pdf_paths, desc=...)], [n] items of
    [total] being done: after each item the bar may refresh, and it is
    closed when the list is exhausted. *)
Fixpoint batch_loop (self : PDFConverter) (output_dir : option Path)
    (total n : nat) (pdf_paths : list Path) (results : dict entry)
  : M Path (dict entry) :=
  match pdf_paths with
  | [] =>
      write_stderr (tqdm_close w tqdm_desc n total) ;;
      ret results
  | pdf_path :: rest =>
      results' <- batch_step self output_dir results pdf_path ;;
      write_stderr (tqdm_refresh w tqdm_desc (S n) total) ;;
      batch_loop self output_dir total (S n) rest results'
  end.

(** [batch_convert]: the bar is made (and shown) over the whole list, then
    the loop runs. *)
Definition batch_convert (self : PDFConverter) (pdf_paths : list Path)
    (output_dir : option Path) : M Path (dict entry) :=
  write_stderr (tqdm_refresh w tqdm_desc 0 (List.length pdf_paths)) ;;
  batch_loop self output_dir (List.length pdf_paths) 0 pdf_paths [].
End Converter.

(* ===================================================================== *)
(** ** The command line: [main] and the click command around it *)
(* ===================================================================== *)

Section CommandLine.
Context {Path : Type} {pathlib : Pathlib Path}.
Variable w : World Path.

(** [sum(1 for r in rs if r['status'] == s)], [acc] being the sum so far. *)
Fixpoint sum_status (s : str) (rs : list entry) (acc : nat) : M Path nat :=
  match rs with
  | [] => ret acc
  | r :: rest =>
      v <- getitem (lit "status") r ;;
      sum_status s rest (if str_eqb v s then acc + 1 else acc)
  end.

(** The verbose listing of the failed entries, in the report's order. *)
Fixpoint echo_errors (items : dict entry) : M Path unit :=
  match items with
  | [] => ret tt
  | (path, result) :: rest =>
      v <- getitem (lit "status") result ;;
      (if str_eqb v (lit "error") then
         err <- getitem (lit "error") result ;;
         echo (lit "  - " ++ path ++ lit ": " ++ err)
       else ret tt) ;;
      echo_errors rest
  end.

Definition check_mark : str := [9989%N].   (* U+2705 *)
Definition cross_mark : str := [10060%N].  (* U+274C *)
Definition rule : str := repeat 61%N 50.   (* "="*50 *)

(** The body of [main], after click has decoded the arguments. *)
Definition main (a : Args) : M Path unit :=
  let input_path := Path_ (arg_input_path a) in
  let converter := PDFConverter_init (arg_method a) in
  if is_file w input_path then
    (if arg_verbose a
     then echo (lit "Converting single PDF: " ++ str_path input_path)
     else ret tt) ;;
    try_except_Exception
      (text <- convert w converter input_path ;;
       match if_given (arg_output a) with
       | Some output =>
           let output_path := Path_ output in
           write_text w output_path text ;;
           echo (check_mark ++ lit " Successfully converted to: "
                   ++ str_path output_path)
       | None =>
           echo (newline ++ rule) ;;
           echo (lit "EXTRACTED TEXT:") ;;
           echo rule ;;
           echo text
       end)
      (fun e =>
         echo_err (cross_mark ++ lit " Error: " ++ str_exn e) ;;
         sys_exit 1)
  else if is_dir w input_path then
    let pattern := if arg_recursive a then lit "**/*.pdf" else lit "*.pdf" in
    let pdf_files := glob w input_path pattern in
    match pdf_files with
    | [] =>
        echo (lit "No PDF files found in " ++ str_path input_path) ;;
        sys_exit 0
    | _ :: _ =>
        echo (lit "Found " ++ str_of_nat (List.length pdf_files) ++ lit " PDF files") ;;
        output_dir <-
          match if_given (arg_output a) with
          | Some output =>
              let dir := Path_ output in
              mkdir w dir ;;
              ret (Some dir)
          | None => ret None
          end ;;
        results <- batch_convert w converter pdf_files output_dir ;;
        success_count <- sum_status (lit "success") (values results) 0 ;;
        error_count <- sum_status (lit "error") (values results) 0 ;;
        echo (newline ++ check_mark ++ lit " Successfully converted: "
                ++ str_of_nat success_count ++ lit "/"
                ++ str_of_nat (List.length pdf_files)) ;;
        if 0 <? error_count then
          echo (cross_mark ++ lit " Failed: " ++ str_of_nat error_count) ;;
          if arg_verbose a then
            echo (newline ++ lit "Errors:") ;;
            echo_errors results
          else ret tt
        else ret tt
    end
  else
    echo_err (lit "Invalid path: " ++ str_path input_path) ;;
    sys_exit 1.

(** The values [click.Choice] accepts for [--method]. *)
Definition method_choices : list str :=
  [lit "auto"; lit "pypdf2"; lit "pdfplumber"].

(** What the decorators check before [main] runs:
    [click.Path(exists=True)] for the input path and [click.Choice] for the
    method. *)
Definition click_accepts (a : Args) : bool :=
  exists_ w (Path_ (arg_input_path a))
  && existsb (str_eqb (arg_method a)) method_choices.

(** The exit status of a click usage error (a refused argument). *)
Definition usage_error_status : N := 2%N.

(** The process, as its exit status and final state: click refuses the
    arguments (usage error), or [main] runs; a normal return exits with 0,
    [sys.exit(code)] with [code], an exception nobody caught with 1.
    (Click's own usage message is not part of the model.) *)
Definition main_command (a : Args) (st : state Path) : N * state Path :=
  if click_accepts a then
    match main a st with
    | (inr _, st') => (0%N, st')
    | (inl (SystemExit code), st') => (code, st')
    | (inl _, st') => (1%N, st')
    end
  else (usage_error_status, st).

Definition exit_status (a : Args) (st : state Path) : N :=
  fst (main_command a st).
End CommandLine.

(* ===================================================================== *)
(** ** A concrete instance for examples: POSIX paths as strings *)
(* ===================================================================== *)

(** Paths in normal form, written with ['/'].  The name is what follows the
    last ['/']; the suffix starts at the last ['.'] of the name when that dot
    is neither its first nor its last character. *)
Definition name_of (p : str) : str :=
  fold_left (fun acc c => if (c =? 47)%N then [] else acc ++ [c]) p [].

Fixpoint rfind_dot (s : str) (i : nat) (found : option nat) : option nat :=
  match s with
  | [] => found
  | c :: r => rfind_dot r (S i) (if (c =? 46)%N then Some i else found)
  end.

Definition suffix_of (p : str) : str :=
  let name := name_of p in
  match rfind_dot name 0 None with
  | Some i => if (0 <? i) && (i <? List.length name - 1) then skipn i name else []
  | None => []
  end.

Definition stem_of (p : str) : str :=
  let name := name_of p in
  match rfind_dot name 0 None with
  | Some i => if (0 <? i) && (i <? List.length name - 1) then firstn i name else name
  | None => name
  end.

#[export] Instance posix_paths : Pathlib str := {
  Path_ := fun s => s;
  str_path := fun p => p;
  suffix := suffix_of;
  stem := stem_of;
  truediv := fun dir name => dir ++ lit "/" ++ name
}.

(** The progress bar of the examples: the description and the count. *)
Definition example_bar (desc : str) (n total : nat) : list str :=
  [desc ++ lit ": " ++ str_of_nat n ++ lit "/" ++ str_of_nat total].

(** Worlds for the examples.  Every path named in [files] is a regular
    file whose backends answer as listed; [dirs] lists the directories, each
    with the PDF paths below it; [devices] lists paths that exist and are
    neither; everything else does not exist.  A glob with ['*.pdf'] finds the
    PDFs directly in the directory, with ['**/*.pdf'] all below it.  Every
    write succeeds. *)
Record pdf_file : Type := {
  pdf_path : str;
  pdf_pypdf2 : lib (list (lib str));
  pdf_pdfplumber : lib (list (lib (option str)))
}.

Fixpoint find_pdf (p : str) (pdfs : list pdf_file) : option pdf_file :=
  match pdfs with
  | [] => None
  | f :: r => if str_eqb p (pdf_path f) then Some f else find_pdf p r
  end.

Definition example_world (pdfs : list pdf_file) (dirs : dict (list str))
    (devices : list str) : World str :=
  {| stat := fun p =>
       match find_pdf p pdfs with
       | Some _ => Some RegularFile
       | None => match dict_get p dirs with
                 | Some _ => Some Directory
                 | None => if existsb (str_eqb p) devices
                           then Some OtherFile else None
                 end
       end;
     glob := fun p pattern =>
       match dict_get p dirs with
       | Some below =>
           if str_eqb pattern (lit "**/*.pdf") then below
           else filter (fun f => str_eqb f (p ++ lit "/" ++ name_of f)) below
       | None => []
       end;
     PyPDF2_PdfReader := fun p =>
       match find_pdf p pdfs with
       | Some f => pdf_pypdf2 f
       | None => inl (lit "No such file")
       end;
     pdfplumber_open := fun p =>
       match find_pdf p pdfs with
       | Some f => pdf_pdfplumber f
       | None => inl (lit "No such file")
       end;
     write_text_raises := fun _ _ => None;
     write_text_leaves := fun _ _ => None;
     mkdir_raises := fun _ => None;
     tqdm_refresh := example_bar;
     tqdm_close := fun _ _ _ => [newline] |}.

Definition auto : PDFConverter := PDFConverter_init (lit "auto").
Definition pypdf2 : PDFConverter := PDFConverter_init (lit "pypdf2").
Definition pdfplumber : PDFConverter := PDFConverter_init (lit "pdfplumber").

(** A report with a blank second page. *)
Definition report_pdf : pdf_file :=
  {| pdf_path := lit "docs/report.pdf";
     pdf_pypdf2 := inr [inr (lit "Title"); inr []; inr (lit "End")];
     pdf_pdfplumber := inr [inr (Some (lit "Title")); inr None; inr (Some (lit "End"))] |}.

(** A scan: pdfplumber finds no text but a space, PyPDF2 cannot read it. *)
Definition scan_pdf : pdf_file :=
  {| pdf_path := lit "docs/scan.pdf";
     pdf_pypdf2 := inl (lit "EOF marker not found");
     pdf_pdfplumber := inr [inr None; inr (Some (lit " ")); inr (Some [])] |}.

(** A corrupt file: both backends raise. *)
Definition broken_pdf : pdf_file :=
  {| pdf_path := lit "docs/broken.pdf";
     pdf_pypdf2 := inl (lit "EOF marker not found");
     pdf_pdfplumber := inl (lit "No /Root object") |}.

(** An older report with the same name, one directory below; its second
    page cannot be read by PyPDF2. *)
Definition old_report_pdf : pdf_file :=
  {| pdf_path := lit "docs/old/report.pdf";
     pdf_pypdf2 := inr [inr (lit "Draft"); inl (lit "bad page")];
     pdf_pdfplumber := inr [inr (Some (lit "Draft"))] |}.

(** A file that is no PDF. *)
Definition notes_txt : pdf_file :=
  {| pdf_path := lit "docs/notes.txt";
     pdf_pypdf2 := inl (lit "EOF marker not found");
     pdf_pdfplumber := inl (lit "No /Root object") |}.

Definition the_world : World str :=
  example_world
    [report_pdf; scan_pdf; broken_pdf; old_report_pdf; notes_txt]
    [(lit "docs", [lit "docs/report.pdf"; lit "docs/scan.pdf"; lit "docs/broken.pdf";
                   lit "docs/old/report.pdf"]);
     (lit "docs/old", [lit "docs/old/report.pdf"]);
     (lit "empty", [])]
    [lit "/dev/null"].

(** The same world on a file system where no directory can be made and no
    file opened for writing. *)
Definition read_only_world : World str :=
  {| stat := stat the_world;
     glob := glob the_world;
     PyPDF2_PdfReader := PyPDF2_PdfReader the_world;
     pdfplumber_open := pdfplumber_open the_world;
     write_text_raises := fun _ _ => Some (lit "Read-only file system");
     write_text_leaves := fun _ _ => None;
     mkdir_raises := fun _ => Some (lit "Read-only file system");
     tqdm_refresh := tqdm_refresh the_world;
     tqdm_close := tqdm_close the_world |}.

(** The same world on a full disk: a file can be opened for writing, which
    empties it, and the write then raises. *)
Definition full_disk_world : World str :=
  {| stat := stat the_world;
     glob := glob the_world;
     PyPDF2_PdfReader := PyPDF2_PdfReader the_world;
     pdfplumber_open := pdfplumber_open the_world;
     write_text_raises := fun _ _ => Some (lit "No space left on device");
     write_text_leaves := fun _ _ => Some [];
     mkdir_raises := fun _ => None;
     tqdm_refresh := tqdm_refresh the_world;
     tqdm_close := tqdm_close the_world |}.

(** A document without any text for pdfplumber, and the world that holds
    it. *)
Definition blank_pdf : pdf_file :=
  {| pdf_path := lit "blank.pdf";
     pdf_pypdf2 := inr [inr []; inr []];
     pdf_pdfplumber := inr [inr None; inr (Some [])] |}.

Definition blank_world : World str := example_world [blank_pdf] [] [].

Definition cli_args (input : string) (output : option string) (m : string)
    (recursive verbose : bool) : Args :=
  {| arg_input_path := lit input;
     arg_output := option_map lit output;
     arg_method := lit m;
     arg_recursive := recursive;
     arg_verbose := verbose |}.

(* ===================================================================== *)
(** ** Reference formulations *)
(* ===================================================================== *)

(** The definitions below are not translations of the source: they say, in
    the words of the specification, what the source is compared with. *)

(** The texts of a document's pages, in page order: the first page that
    raises decides, otherwise every page contributes its text. *)
Fixpoint collect {A} (pages : list (lib A)) : lib (list A) :=
  match pages with
  | [] => inr []
  | inl detail :: _ => inl detail
  | inr t :: rest =>
      match collect rest with
      | inl detail => inl detail
      | inr ts => inr (t :: ts)
      end
  end.

(** What a backend produces for a document: it raises (on opening, or on
    the first page that raises), or yields the per-page texts in order. *)
Definition pages_in_order {A} (doc : lib (list (lib A))) : lib (list A) :=
  match doc with
  | inl detail => inl detail
  | inr pages => collect pages
  end.

(** The page texts that are neither undefined ([None]) nor empty. *)
Definition with_text (texts : list (option str)) : list str :=
  flat_map (fun o => match o with
                     | Some (c :: t) => [c :: t]
                     | _ => []
                     end) texts.

(** Empty or all-whitespace. *)
Definition blank (t : str) : bool := forallb isspace t.

(** The two failures the specification calls [InvalidInput]. *)
Definition is_InvalidInput (e : exn) : bool :=
  match e with
  | FileNotFoundError _ | ValueError _ => true
  | _ => false
  end.

(** [BackendFailure{backend, detail}]: the exception the adapters raise,
    whose message names the backend. *)
Definition BackendFailure (backend detail : str) : exn :=
  Exception (backend ++ lit " extraction failed: " ++ detail).

Section Reference.
Context {Path : Type} {pathlib : Pathlib Path}.
Variable w : World Path.

(** The preconditions of [convert]: the path exists and has a [.pdf]
    extension, whatever the case of its letters. *)
Definition precondition (p : Path) : bool :=
  exists_ w p && str_eqb (lower (suffix p)) (lit ".pdf").

(** How often a function was entered with a given log. *)
Definition count_calls (f : fn) (st : state Path) : nat :=
  List.length (calls_of f st).

(** The state with one more logged entry. *)
Definition logged (f : fn) (p : Path) (st : state Path) : state Path :=
  after (log_call f p) st.

(** What the specification expects of the two adapters. *)
Definition expected_pypdf2 (p : Path) : exn + str :=
  match pages_in_order (PyPDF2_PdfReader w p) with
  | inr texts => inr (join newline texts)
  | inl detail => inl (BackendFailure (lit "PyPDF2") detail)
  end.

Definition expected_pdfplumber (p : Path) : exn + str :=
  match pages_in_order (pdfplumber_open w p) with
  | inr texts => inr (join newline (with_text texts))
  | inl detail => inl (BackendFailure (lit "pdfplumber") detail)
  end.

(** The output file of an input in batch mode. *)
Definition output_file (dir : Path) (p : Path) : Path :=
  truediv dir (stem p ++ lit ".txt").

(** The report entries, by shape. *)
Definition success_output (output : str) : entry :=
  [(lit "status", lit "success"); (lit "output", output)].
Definition success_text (text : str) : entry :=
  [(lit "status", lit "success"); (lit "text", text)].
Definition error_entry (error : str) : entry :=
  [(lit "status", lit "error"); (lit "error", error)].

(** The entry the specification expects for one input of a batch: its
    conversion failure, or the failure of writing its output, or the
    success with the output path (with the preview, when no output
    directory is given). *)
Definition batch_entry (self : PDFConverter) (output_dir : option Path)
    (p : Path) : entry :=
  match result (convert w self p) init_state with
  | inl e => error_entry (str_exn e)
  | inr text =>
      match output_dir with
      | Some dir =>
          match write_text_raises w (output_file dir p) text with
          | Some msg => error_entry msg
          | None => success_output (str_path (output_file dir p))
          end
      | None => success_text (preview text)
      end
  end.

(** The file one input of a batch sets, if any: path and content.  It is
    the output with the converted text, or what a write that raised left
    of it. *)
Definition batch_write (self : PDFConverter) (output_dir : option Path)
    (p : Path) : option (str * str) :=
  match result (convert w self p) init_state, output_dir with
  | inr text, Some dir =>
      match write_text_raises w (output_file dir p) text with
      | Some _ =>
          match write_text_leaves w (output_file dir p) text with
          | Some content => Some (str_path (output_file dir p), content)
          | None => None
          end
      | None => Some (str_path (output_file dir p), text)
      end
  | _, _ => None
  end.

Definition batch_report (self : PDFConverter) (output_dir : option Path)
    (paths : list Path) (results : dict entry) : dict entry :=
  fold_left
    (fun r p => dict_set (str_path p) (batch_entry self output_dir p) r)
    paths results.

Definition batch_files (self : PDFConverter) (output_dir : option Path)
    (paths : list Path) (fs : dict str) : dict str :=
  fold_left
    (fun fs p =>
       match batch_write self output_dir p with
       | Some (k, text) => dict_set k text fs
       | None => fs
       end)
    paths fs.

(** The entries of a report marked with a given status. *)
Definition has_status (s : str) (r : entry) : bool :=
  match dict_get (lit "status") r with
  | Some v => str_eqb v s
  | None => false
  end.

Definition count_status (s : str) (rs : list entry) : nat :=
  List.length (filter (has_status s) rs).

(** An entry is marked when its status is ['success'] or ['error']. *)
Definition marked (r : entry) : Prop :=
  dict_get (lit "status") r = Some (lit "success")
  \/ dict_get (lit "status") r = Some (lit "error").

(** An entry [main] can list: marked, and with its message when it is an
    error. *)
Definition reportable (r : entry) : Prop :=
  dict_get (lit "status") r = Some (lit "success")
  \/ (dict_get (lit "status") r = Some (lit "error")
      /\ exists msg, dict_get (lit "error") r = Some msg).
End Reference.

(* ===================================================================== *)
(** ** What a run leaves behind *)
(* ===================================================================== *)

(** The ways a state grows, and what the specification expects [main] to
    print for a batch.  As above, these are no translations of the source. *)

Section Observations.
Context {Path : Type} {pathlib : Pathlib Path}.
Variable w : World Path.

Definition add_calls (l : list (fn * Path)) (st : state Path) : state Path :=
  {| calls := calls st ++ l; files := files st;
     stdout := stdout st; stderr := stderr st |}.

Definition add_stdout (l : list str) (st : state Path) : state Path :=
  {| calls := calls st; files := files st;
     stdout := stdout st ++ l; stderr := stderr st |}.

Definition add_stderr (l : list str) (st : state Path) : state Path :=
  {| calls := calls st; files := files st;
     stdout := stdout st; stderr := stderr st ++ l |}.

Definition set_file (k text : str) (st : state Path) : state Path :=
  {| calls := calls st; files := dict_set k text (files st);
     stdout := stdout st; stderr := stderr st |}.

(** The state in which [main] starts the conversion of a single file. *)
Definition announced (a : Args) (st : state Path) : state Path :=
  if arg_verbose a
  then add_stdout [lit "Converting single PDF: "
                     ++ str_path (Path_ (arg_input_path a))] st
  else st.

(** What the progress bar writes during a batch over [total] files: after
    each of the [todo] files left when [n] are done, and when it closes. *)
Fixpoint progress_rest (total n todo : nat) : list str :=
  match todo with
  | 0 => tqdm_close w tqdm_desc n total
  | S todo' =>
      tqdm_refresh w tqdm_desc (S n) total ++ progress_rest total (S n) todo'
  end.

(** All the bar writes: when it is made, then as above. *)
Definition progress (total : nat) : list str :=
  tqdm_refresh w tqdm_desc 0 total ++ progress_rest total 0 total.

(** The entries one call of [convert] adds to the log. *)
Definition convert_trace (self : PDFConverter) (p : Path) : list (fn * Path) :=
  calls (after (convert w self p) init_state).

(** The lines of the verbose listing: one per entry in error, in the order
    of the report. *)
Definition error_lines (report : dict entry) : list str :=
  flat_map
    (fun item =>
       if has_status (lit "error") (snd item) then
         match dict_get (lit "error") (snd item) with
         | Some msg => [lit "  - " ++ fst item ++ lit ": " ++ msg]
         | None => []
         end
       else [])
    report.

(** What [main] prints after a batch over [n] files. *)
Definition summary_lines (verbose : bool) (n : nat) (report : dict entry)
  : list str :=
  let successes := count_status (lit "success") (values report) in
  let errors := count_status (lit "error") (values report) in
  [newline ++ check_mark ++ lit " Successfully converted: "
     ++ str_of_nat successes ++ lit "/" ++ str_of_nat n]
  ++ (if 0 <? errors then
        [cross_mark ++ lit " Failed: " ++ str_of_nat errors]
        ++ (if verbose then (newline ++ lit "Errors:") :: error_lines report
            else [])
      else []).
End Observations.

(** Closes [NoDup l] for a list of concrete strings. *)
Ltac distinct_strings :=
  repeat (constructor; [vm_compute; intuition discriminate|]); constructor.

(** Discharges the premises of [H] that hold by computation. *)
Ltac by_computation H :=
  repeat match type of H with
         | ?A -> _ =>
             let Ha := fresh in
             assert (Ha : A) by first [reflexivity | intros; reflexivity];
             specialize (H Ha); clear Ha
         end.

(* ===================================================================== *)
(** * Facts about strings and dicts *)
(* ===================================================================== *)

Unset Implicit Arguments.

Lemma str_eqb_refl (a : str) : str_eqb a a = true.
Proof.
  induction a as [|x a IH]; simpl; [reflexivity|].
  now rewrite N.eqb_refl, IH.
Qed.

Lemma str_eqb_eq (a b : str) : str_eqb a b = true <-> a = b.
Proof.
  split; [|intros ->; apply str_eqb_refl].
  revert b; induction a as [|x a IH]; intros [|y b]; simpl; try discriminate; auto.
  intros H; apply andb_true_iff in H as [Hx Hr].
  apply N.eqb_eq in Hx; subst; f_equal; auto.
Qed.

Lemma str_eqb_neq (a b : str) : str_eqb a b = false <-> a <> b.
Proof.
  split.
  - intros H E. apply str_eqb_eq in E. congruence.
  - intros H. destruct (str_eqb a b) eqn:E; [|reflexivity].
    apply str_eqb_eq in E. contradiction.
Qed.

Lemma str_eqb_sym (a b : str) : str_eqb a b = str_eqb b a.
Proof.
  destruct (str_eqb a b) eqn:E.
  - apply str_eqb_eq in E; subst. symmetry; apply str_eqb_refl.
  - apply str_eqb_neq in E. symmetry; apply str_eqb_neq; congruence.
Qed.

(** Stripping on the left leaves nothing exactly when every code point is
    whitespace. *)
Lemma lstrip_nil (s : str) : lstrip s = [] <-> blank s = true.
Proof.
  unfold blank; induction s as [|c s IH]; simpl; [tauto|].
  destruct (isspace c); simpl; [exact IH|].
  split; discriminate.
Qed.

Lemma lstrip_snoc_not_nil (s : str) (c : N) :
  isspace c = false -> lstrip (s ++ [c]) <> [].
Proof.
  intros Hc; induction s as [|x s IH]; simpl.
  - rewrite Hc; discriminate.
  - destruct (isspace x); [exact IH | discriminate].
Qed.

Lemma lstrip_head (s : str) (c : N) (r : str) :
  lstrip s = c :: r -> isspace c = false.
Proof.
  induction s as [|x s IH]; simpl; [discriminate|].
  destruct (isspace x) eqn:E; [exact IH|].
  intros H; injection H as -> _; exact E.
Qed.

(** [not text.strip()] holds exactly for the empty and the all-whitespace
    strings. *)
Lemma strip_nil (s : str) : strip s = [] <-> blank s = true.
Proof.
  rewrite <- lstrip_nil. unfold strip, rstrip.
  split.
  - intros H. destruct (lstrip s) as [|c r] eqn:E; [reflexivity|].
    exfalso. apply lstrip_head in E.
    apply (f_equal (@rev N)) in H. rewrite rev_involutive in H. simpl in H.
    exact (lstrip_snoc_not_nil (rev r) c E H).
  - intros ->. reflexivity.
Qed.

Lemma not_truthy_strip (s : str) : negb (truthy (strip s)) = blank s.
Proof.
  destruct (blank s) eqn:E.
  - apply strip_nil in E. now rewrite E.
  - destruct (strip s) eqn:S; [|reflexivity].
    apply strip_nil in S. congruence.
Qed.

Lemma dict_get_set_same {V} (k : str) (v : V) (d : dict V) :
  dict_get k (dict_set k v d) = Some v.
Proof.
  induction d as [|[k' v'] d IH]; simpl.
  - now rewrite str_eqb_refl.
  - destruct (str_eqb k k') eqn:E; simpl; rewrite E; [reflexivity | exact IH].
Qed.

Lemma dict_get_set_other {V} (k k0 : str) (v : V) (d : dict V) :
  k0 <> k -> dict_get k0 (dict_set k v d) = dict_get k0 d.
Proof.
  intros Hne; induction d as [|[k' v'] d IH]; simpl.
  - apply str_eqb_neq in Hne. now rewrite Hne.
  - destruct (str_eqb k k') eqn:E; simpl.
    + apply str_eqb_eq in E; subst k'.
      apply str_eqb_neq in Hne. now rewrite Hne.
    + now rewrite IH.
Qed.

(** Assigning to a new key appends it; assigning to a present key leaves the
    keys as they are. *)
Lemma keys_dict_set_new {V} (k : str) (v : V) (d : dict V) :
  ~ In k (keys d) -> keys (dict_set k v d) = keys d ++ [k].
Proof.
  unfold keys; induction d as [|[k' v'] d IH]; simpl; [reflexivity|].
  intros Hn. destruct (str_eqb k k') eqn:E.
  - apply str_eqb_eq in E. subst. tauto.
  - simpl. f_equal. apply IH. tauto.
Qed.

Lemma keys_dict_set_old {V} (k : str) (v : V) (d : dict V) :
  In k (keys d) -> keys (dict_set k v d) = keys d.
Proof.
  unfold keys; induction d as [|[k' v'] d IH]; simpl; [tauto|].
  intros Hin. destruct (str_eqb k k') eqn:E; simpl; [reflexivity|].
  f_equal. apply IH. destruct Hin as [->|]; [|assumption].
  now rewrite str_eqb_refl in E.
Qed.

Lemma values_dict_set {V} (P : V -> Prop) (k : str) (v : V) (d : dict V) :
  P v -> Forall P (values d) -> Forall P (values (dict_set k v d)).
Proof.
  unfold values; intros Hv; induction d as [|[k' v'] d IH]; simpl; intros H.
  - constructor; auto.
  - inversion H; subst. destruct (str_eqb k k'); simpl; constructor; auto.
Qed.

Lemma dict_get_In {V} (k : str) (v : V) (d : dict V) :
  dict_get k d = Some v -> In v (values d).
Proof.
  unfold values; induction d as [|[k' v'] d IH]; simpl; [discriminate|].
  destruct (str_eqb k k'); [intros [= ->]; auto | auto].
Qed.

Lemma collect_texts {A} (texts : list A) :
  collect (map inr texts) = inr texts.
Proof.
  induction texts as [|t ts IH]; simpl; [reflexivity|]. now rewrite IH.
Qed.

Lemma collect_first_failure {A} (texts : list A) (detail : str) (rest : list (lib A)) :
  collect (map inr texts ++ inl detail :: rest) = inl detail.
Proof.
  induction texts as [|t ts IH]; simpl; [reflexivity|]. now rewrite IH.
Qed.

Lemma with_text_no_empty (texts : list (option str)) :
  Forall (fun t => t <> []) (with_text texts).
Proof.
  induction texts as [|[[|c t]|] ts IH]; simpl; auto.
  constructor; [discriminate | exact IH].
Qed.

Lemma with_text_In (texts : list (option str)) (t : str) :
  In t (with_text texts) <-> In (Some t) texts /\ t <> [].
Proof.
  induction texts as [|[[|c s]|] ts IH]; simpl.
  - tauto.
  - rewrite IH. intuition congruence.
  - rewrite IH. split.
    + intros [<-|[H1 H2]]; split; auto; discriminate.
    + intros [[H|H] Hne]; [injection H; auto | auto].
  - rewrite IH. intuition congruence.
Qed.

(* ===================================================================== *)
(** * The two adapters *)
(* ===================================================================== *)

Section AdapterFacts.
Context {Path : Type} {pathlib : Pathlib Path}.
Variable w : World Path.

Lemma pypdf2_loop_run (pages : list (lib str)) (text : list str) (st : state Path) :
  pypdf2_loop pages text st =
    (match collect pages with
     | inl detail => inl (LibraryError detail)
     | inr ts => inr (text ++ ts)
     end, st).
Proof.
  revert text; induction pages as [|[detail|t] rest IH]; intros text; simpl.
  - now rewrite app_nil_r.
  - reflexivity.
  - unfold bind; simpl. rewrite IH.
    destruct (collect rest); [reflexivity|].
    now rewrite <- app_assoc.
Qed.

Lemma pdfplumber_loop_run (pages : list (lib (option str))) (text : list str)
    (st : state Path) :
  pdfplumber_loop pages text st =
    (match collect pages with
     | inl detail => inl (LibraryError detail)
     | inr ts => inr (text ++ with_text ts)
     end, st).
Proof.
  revert text; induction pages as [|[detail|[[|c t]|]] rest IH]; intros text; simpl.
  - now rewrite app_nil_r.
  - reflexivity.
  - unfold bind; simpl. rewrite IH. now destruct (collect rest).
  - unfold bind; simpl. rewrite IH.
    destruct (collect rest); [reflexivity|].
    simpl. now rewrite <- app_assoc.
  - unfold bind; simpl. rewrite IH. now destruct (collect rest).
Qed.

(** One call of an adapter logs its entry and produces what the
    specification expects of it, whatever the state. *)
Lemma extract_with_pypdf2_run (self : PDFConverter) (p : Path) (st : state Path) :
  extract_with_pypdf2 w self p st =
    (expected_pypdf2 w p, logged fn_extract_with_pypdf2 p st).
Proof.
  unfold extract_with_pypdf2, expected_pypdf2, pages_in_order, logged, after.
  unfold bind, try_except_Exception; simpl.
  destruct (PyPDF2_PdfReader w p) as [detail|pages]; simpl; [reflexivity|].
  rewrite pypdf2_loop_run.
  destruct (collect pages); reflexivity.
Qed.

Lemma extract_with_pdfplumber_run (self : PDFConverter) (p : Path) (st : state Path) :
  extract_with_pdfplumber w self p st =
    (expected_pdfplumber w p, logged fn_extract_with_pdfplumber p st).
Proof.
  unfold extract_with_pdfplumber, expected_pdfplumber, pages_in_order, logged, after.
  unfold bind, try_except_Exception; simpl.
  destruct (pdfplumber_open w p) as [detail|pages]; simpl; [reflexivity|].
  rewrite pdfplumber_loop_run.
  destruct (collect pages); reflexivity.
Qed.

Lemma expected_pypdf2_raises (p : Path) (e : exn) :
  expected_pypdf2 w p = inl e ->
  exists detail, e = BackendFailure (lit "PyPDF2") detail.
Proof.
  unfold expected_pypdf2.
  destruct (pages_in_order _) as [detail|ts]; [|discriminate].
  intros [= <-]. now exists detail.
Qed.

Lemma expected_pdfplumber_raises (p : Path) (e : exn) :
  expected_pdfplumber w p = inl e ->
  exists detail, e = BackendFailure (lit "pdfplumber") detail.
Proof.
  unfold expected_pdfplumber.
  destruct (pages_in_order _) as [detail|ts]; [|discriminate].
  intros [= <-]. now exists detail.
Qed.

(** The log after [logged]. *)
Lemma calls_of_logged (f g : fn) (p : Path) (st : state Path) :
  calls_of f (logged g p st) =
    calls_of f st ++ (if fn_eqb g f then [p] else []).
Proof.
  unfold calls_of, logged, after, log_call; simpl.
  rewrite filter_app, map_app; simpl.
  destruct (fn_eqb g f); reflexivity.
Qed.

Lemma files_logged (g : fn) (p : Path) (st : state Path) :
  files (logged g p st) = files st.
Proof. reflexivity. Qed.
End AdapterFacts.

(* ===================================================================== *)
(** * [convert] *)
(* ===================================================================== *)

Section ConvertFacts.
Context {Path : Type} {pathlib : Pathlib Path}.
Variable w : World Path.

(** A run of [convert] on a path that violates a precondition. *)
Lemma convert_invalid_run (self : PDFConverter) (p : Path) (st : state Path) :
  precondition w p = false ->
  convert w self p st =
    (inl (if exists_ w p
          then ValueError (lit "File must be a PDF: " ++ str_path p)
          else FileNotFoundError (lit "PDF file not found: " ++ str_path p)),
     logged fn_convert p st).
Proof.
  unfold precondition, convert, bind, logged, after; simpl.
  destruct (exists_ w p); simpl; [|reflexivity].
  intros ->; reflexivity.
Qed.

(** A run of [convert] on a path that satisfies them, by method. *)
Lemma convert_valid_run (self : PDFConverter) (p : Path) (st : state Path) :
  precondition w p = true ->
  convert w self p st =
    let st1 := logged fn_convert p st in
    if str_eqb (method self) (lit "pypdf2") then
      (expected_pypdf2 w p, logged fn_extract_with_pypdf2 p st1)
    else if str_eqb (method self) (lit "pdfplumber") then
      (expected_pdfplumber w p, logged fn_extract_with_pdfplumber p st1)
    else
      match expected_pdfplumber w p with
      | inl _ => (expected_pypdf2 w p, logged fn_extract_with_pypdf2 p (logged fn_extract_with_pdfplumber p st1))
      | inr text =>
          if blank text then
            match expected_pypdf2 w p with
            | inl _ =>
                (expected_pypdf2 w p,
                 logged fn_extract_with_pypdf2 p (logged fn_extract_with_pypdf2 p (logged fn_extract_with_pdfplumber p st1)))
            | inr _ => (expected_pypdf2 w p, logged fn_extract_with_pypdf2 p (logged fn_extract_with_pdfplumber p st1))
            end
          else (inr text, logged fn_extract_with_pdfplumber p st1)
      end.
Proof.
  unfold precondition; intros Hpre.
  apply andb_true_iff in Hpre as [Hex Hsuf].
  unfold convert. unfold bind at 1. simpl.
  rewrite Hex, Hsuf; simpl.
  fold (logged fn_convert p st).
  destruct (str_eqb (method self) (lit "pypdf2")).
  { apply extract_with_pypdf2_run. }
  destruct (str_eqb (method self) (lit "pdfplumber")).
  { apply extract_with_pdfplumber_run. }
  unfold try_except, bind.
  rewrite extract_with_pdfplumber_run.
  destruct (expected_pdfplumber w p) as [e|text].
  { apply extract_with_pypdf2_run. }
  rewrite not_truthy_strip.
  destruct (blank text); [|reflexivity].
  rewrite extract_with_pypdf2_run.
  destruct (expected_pypdf2 w p) as [e|t] eqn:EA; [|reflexivity].
  rewrite extract_with_pypdf2_run, EA. reflexivity.
Qed.

(** What [convert] returns or raises does not depend on the state. *)
Lemma convert_result_state (self : PDFConverter) (p : Path) (st st' : state Path) :
  result (convert w self p) st = result (convert w self p) st'.
Proof.
  unfold result.
  destruct (precondition w p) eqn:Hpre.
  - rewrite !convert_valid_run by assumption; simpl.
    destruct (str_eqb (method self) (lit "pypdf2")); [reflexivity|].
    destruct (str_eqb (method self) (lit "pdfplumber")); [reflexivity|].
    destruct (expected_pdfplumber w p) as [e|text]; [reflexivity|].
    destruct (blank text); [|reflexivity].
    destruct (expected_pypdf2 w p); reflexivity.
  - rewrite !convert_invalid_run by assumption. reflexivity.
Qed.

(** [convert] raises no [SystemExit]: every exception it raises is caught
    by [except Exception]. *)
Lemma convert_raises_Exception (self : PDFConverter) (p : Path) (st : state Path)
    (e : exn) :
  result (convert w self p) st = inl e -> is_Exception e = true.
Proof.
  unfold result.
  destruct (precondition w p) eqn:Hpre.
  - rewrite convert_valid_run by assumption; simpl.
    assert (HA : expected_pypdf2 w p = inl e -> is_Exception e = true).
    { intros H. apply expected_pypdf2_raises in H as [d ->]. reflexivity. }
    assert (HB : expected_pdfplumber w p = inl e -> is_Exception e = true).
    { intros H. apply expected_pdfplumber_raises in H as [d ->]. reflexivity. }
    destruct (str_eqb (method self) (lit "pypdf2")); [exact HA|].
    destruct (str_eqb (method self) (lit "pdfplumber")); [exact HB|].
    destruct (expected_pdfplumber w p) as [e'|text]; [exact HA|].
    destruct (blank text); [|discriminate].
    destruct (expected_pypdf2 w p); [exact HA | discriminate].
  - rewrite convert_invalid_run by assumption; simpl.
    destruct (exists_ w p); intros [= <-]; reflexivity.
Qed.

(** The calls [convert] logs itself: exactly one, its own entry. *)
Lemma convert_logs_itself (self : PDFConverter) (p : Path) (st : state Path) :
  calls_of fn_convert (after (convert w self p) st) =
    calls_of fn_convert st ++ [p].
Proof.
  unfold after.
  destruct (precondition w p) eqn:Hpre.
  - rewrite convert_valid_run by assumption; simpl.
    destruct (str_eqb (method self) (lit "pypdf2")); simpl.
    { rewrite !calls_of_logged; simpl. now rewrite app_nil_r. }
    destruct (str_eqb (method self) (lit "pdfplumber")); simpl.
    { rewrite !calls_of_logged; simpl. now rewrite app_nil_r. }
    destruct (expected_pdfplumber w p) as [e|text]; simpl.
    { rewrite !calls_of_logged; simpl. now rewrite !app_nil_r. }
    destruct (blank text); simpl.
    + destruct (expected_pypdf2 w p); simpl;
        rewrite !calls_of_logged; simpl; now rewrite !app_nil_r.
    + rewrite !calls_of_logged; simpl. now rewrite !app_nil_r.
  - rewrite convert_invalid_run by assumption; simpl.
    now rewrite calls_of_logged.
Qed.

(** [convert] writes no file. *)
Lemma convert_files (self : PDFConverter) (p : Path) (st : state Path) :
  files (after (convert w self p) st) = files st.
Proof.
  unfold after.
  destruct (precondition w p) eqn:Hpre.
  - rewrite convert_valid_run by assumption; simpl.
    destruct (str_eqb (method self) (lit "pypdf2")); [reflexivity|].
    destruct (str_eqb (method self) (lit "pdfplumber")); [reflexivity|].
    destruct (expected_pdfplumber w p) as [e|text]; [reflexivity|].
    destruct (blank text); [|reflexivity].
    destruct (expected_pypdf2 w p); reflexivity.
  - rewrite convert_invalid_run by assumption. reflexivity.
Qed.
End ConvertFacts.

(* ===================================================================== *)
(** * The extraction strategy: the claims on [convert] *)
(* ===================================================================== *)

Section Strategy.
Context {Path : Type} {pathlib : Pathlib Path}.
Variable w : World Path.

(** C1.  On a path that satisfies the preconditions, when the pdfplumber
    adapter raises, [convert] in auto mode gives what [convert] with
    method ['pypdf2'] gives, which is what PyPDF2 produces for the
    document: the texts of its pages joined by newlines, or, when PyPDF2
    raises too, the PyPDF2 failure with its detail and not the pdfplumber
    one.  The PyPDF2 adapter is entered once, after the pdfplumber one. *)
Theorem convert_auto_falls_back_when_pdfplumber_raises
    (p : Path) (st : state Path) (e : exn) :
  precondition w p = true ->
  result (extract_with_pdfplumber w auto p) st = inl e ->
  result (convert w auto p) st = result (convert w pypdf2 p) st
  /\ result (convert w auto p) st =
       match pages_in_order (PyPDF2_PdfReader w p) with
       | inr texts => inr (join newline texts)
       | inl detail => inl (BackendFailure (lit "PyPDF2") detail)
       end
  /\ calls (after (convert w auto p) st) =
       calls st ++ [(fn_convert, p); (fn_extract_with_pdfplumber, p);
                    (fn_extract_with_pypdf2, p)]
  /\ (forall e', result (convert w auto p) st = inl e' ->
        exists detail, e' = BackendFailure (lit "PyPDF2") detail).
Proof.
  intros Hpre HB.
  unfold result, after in *.
  rewrite extract_with_pdfplumber_run in HB; simpl in HB.
  rewrite !convert_valid_run by assumption; simpl.
  rewrite HB; simpl.
  split; [reflexivity|]. split; [reflexivity|].
  split; [now rewrite <- !app_assoc|].
  intros e' He'. exact (expected_pypdf2_raises w p e' He').
Qed.

(** C2.  On a path that satisfies the preconditions: when the pdfplumber
    adapter returns a text that is empty or all whitespace, [convert] in
    auto mode gives what [convert] with method ['pypdf2'] gives, which is
    what PyPDF2 produces for the document (the texts of its pages joined by
    newlines, or the PyPDF2 failure), and the pdfplumber adapter is entered
    once, not again.  In particular, for a document none of whose pages has
    text for pdfplumber, the pdfplumber adapter returns the empty string
    and auto mode gives the PyPDF2 output, empty or not: an error only when
    PyPDF2 itself raises. *)
Theorem convert_auto_falls_back_when_pdfplumber_blank
    (p : Path) (st : state Path) :
  precondition w p = true ->
  (forall text,
     result (extract_with_pdfplumber w auto p) st = inr text ->
     blank text = true ->
     result (convert w auto p) st = result (convert w pypdf2 p) st
     /\ result (convert w auto p) st =
          match pages_in_order (PyPDF2_PdfReader w p) with
          | inr texts => inr (join newline texts)
          | inl detail => inl (BackendFailure (lit "PyPDF2") detail)
          end
     /\ calls_of fn_extract_with_pdfplumber (after (convert w auto p) st) =
          calls_of fn_extract_with_pdfplumber st ++ [p])
  /\ (forall pages,
        pages_in_order (pdfplumber_open w p) = inr pages ->
        with_text pages = [] ->
        result (extract_with_pdfplumber w auto p) st = inr []
        /\ result (convert w auto p) st =
             match pages_in_order (PyPDF2_PdfReader w p) with
             | inr texts => inr (join newline texts)
             | inl detail => inl (BackendFailure (lit "PyPDF2") detail)
             end
        /\ (forall texts,
              pages_in_order (PyPDF2_PdfReader w p) = inr texts ->
              result (convert w auto p) st = inr (join newline texts))).
Proof.
  intros Hpre. unfold result, after. split.
  - intros text HB Hblank.
    rewrite extract_with_pdfplumber_run in HB; simpl in HB.
    rewrite !convert_valid_run by assumption; simpl.
    rewrite HB, Hblank; simpl. unfold expected_pypdf2.
    destruct (pages_in_order (PyPDF2_PdfReader w p)); simpl;
      (split; [reflexivity|]); (split; [reflexivity|]);
      rewrite !calls_of_logged; simpl; now rewrite !app_nil_r.
  - intros pages Hpages Hnone.
    rewrite extract_with_pdfplumber_run, convert_valid_run by assumption; simpl.
    unfold expected_pdfplumber, expected_pypdf2. rewrite Hpages, Hnone; simpl.
    split; [reflexivity|].
    destruct (pages_in_order (PyPDF2_PdfReader w p)) as [detail|texts]; simpl.
    + split; [reflexivity|]. intros texts Htexts. discriminate.
    + split; [reflexivity|]. intros texts' [= <-]. reflexivity.
Qed.

(** X3.  A document none of whose pages has text for pdfplumber: its
    adapter returns the empty string, which is no error, and auto mode gives
    what PyPDF2 gives for the document. *)
Lemma convert_auto_no_text_pages
    (p : Path) (st : state Path) (pages : list (option str)) :
  precondition w p = true ->
  pages_in_order (pdfplumber_open w p) = inr pages ->
  with_text pages = [] ->
  result (convert w auto p) st = expected_pypdf2 w p.
Proof.
  intros Hpre Hpages Hnone.
  unfold result. rewrite convert_valid_run by assumption; simpl.
  unfold expected_pdfplumber. rewrite Hpages, Hnone; simpl.
  destruct (expected_pypdf2 w p); reflexivity.
Qed.

(** C4.  On a path that violates a precondition, [convert] raises an
    [InvalidInput] failure whatever the method: "not found"
    ([FileNotFoundError]) when the path does not exist, whatever its
    suffix, and otherwise "must be a PDF" ([ValueError]); it only logs its
    own entry, so neither adapter is entered. *)
Theorem convert_rejects_invalid_input
    (self : PDFConverter) (p : Path) (st : state Path) :
  precondition w p = false ->
  exists e,
    convert w self p st = (inl e, logged fn_convert p st)
    /\ is_InvalidInput e = true
    /\ e = (if exists_ w p
            then ValueError (lit "File must be a PDF: " ++ str_path p)
            else FileNotFoundError (lit "PDF file not found: " ++ str_path p))
    /\ calls_of fn_extract_with_pypdf2 (after (convert w self p) st) =
         calls_of fn_extract_with_pypdf2 st
    /\ calls_of fn_extract_with_pdfplumber (after (convert w self p) st) =
         calls_of fn_extract_with_pdfplumber st.
Proof.
  intros Hpre. unfold after.
  rewrite convert_invalid_run by assumption; simpl.
  eexists; split; [reflexivity|].
  split; [now destruct (exists_ w p)|].
  split; [reflexivity|].
  rewrite !calls_of_logged; simpl. now rewrite !app_nil_r.
Qed.

(** C5.  On a path that satisfies the preconditions, [convert] with method
    ['pypdf2'] returns the texts PyPDF2 yields for the pages, all of them
    and in page order, joined by one newline; when PyPDF2 raises, it
    raises the failure that names PyPDF2 and carries the detail. *)
Theorem convert_pypdf2_joins_all_pages (p : Path) (st : state Path) :
  precondition w p = true ->
  result (convert w pypdf2 p) st =
    match pages_in_order (PyPDF2_PdfReader w p) with
    | inr texts => inr (join newline texts)
    | inl detail => inl (BackendFailure (lit "PyPDF2") detail)
    end.
Proof.
  intros Hpre. unfold result.
  rewrite convert_valid_run by assumption. reflexivity.
Qed.

(** C6.  On a path that satisfies the preconditions, [convert] with method
    ['pdfplumber'] returns the texts pdfplumber yields for the pages that
    have one (neither [None] nor empty), in page order, joined by one
    newline; when pdfplumber raises, it raises the failure that names
    pdfplumber and carries the detail. *)
Theorem convert_pdfplumber_joins_pages_with_text (p : Path) (st : state Path) :
  precondition w p = true ->
  result (convert w pdfplumber p) st =
    match pages_in_order (pdfplumber_open w p) with
    | inr texts => inr (join newline (with_text texts))
    | inl detail => inl (BackendFailure (lit "pdfplumber") detail)
    end.
Proof.
  intros Hpre. unfold result.
  rewrite convert_valid_run by assumption. reflexivity.
Qed.

(** The two cases of C5 spelled out on the pages: when every page yields
    its text, the result is all of them joined; when a page raises after
    some pages, the failure carries that page's detail. *)
Lemma convert_pypdf2_all_pages (p : Path) (st : state Path) (texts : list str) :
  precondition w p = true ->
  PyPDF2_PdfReader w p = inr (map inr texts) ->
  result (convert w pypdf2 p) st = inr (join newline texts).
Proof.
  intros Hpre Hdoc. unfold result.
  rewrite convert_valid_run by assumption; simpl.
  unfold expected_pypdf2, pages_in_order. now rewrite Hdoc, collect_texts.
Qed.

Lemma convert_pypdf2_page_raises (p : Path) (st : state Path)
    (texts : list str) (detail : str) (rest : list (lib str)) :
  precondition w p = true ->
  PyPDF2_PdfReader w p = inr (map inr texts ++ inl detail :: rest) ->
  result (convert w pypdf2 p) st = inl (BackendFailure (lit "PyPDF2") detail).
Proof.
  intros Hpre Hdoc. unfold result.
  rewrite convert_valid_run by assumption; simpl.
  unfold expected_pypdf2, pages_in_order.
  now rewrite Hdoc, collect_first_failure.
Qed.

(** What C6 keeps: a text is in the result's segments exactly when some
    page yields it and it is not empty. *)
Lemma convert_pdfplumber_segments (p : Path) (st : state Path)
    (texts : list (option str)) :
  precondition w p = true ->
  pages_in_order (pdfplumber_open w p) = inr texts ->
  result (convert w pdfplumber p) st = inr (join newline (with_text texts))
  /\ (forall t, In t (with_text texts) <-> In (Some t) texts /\ t <> []).
Proof.
  intros Hpre Hdoc. split; [|intros t; apply with_text_In].
  unfold result. rewrite convert_valid_run by assumption; simpl.
  unfold expected_pdfplumber. now rewrite Hdoc.
Qed.

(** C9.  A converter built with any method string other than ['pypdf2']
    and ['pdfplumber'] is accepted and runs exactly as one built with
    ['auto']: same result, same calls, same state. *)
Theorem convert_unknown_method_is_auto
    (m : str) (p : Path) (st : state Path) :
  m <> lit "pypdf2" ->
  m <> lit "pdfplumber" ->
  method (PDFConverter_init m) = m
  /\ convert w (PDFConverter_init m) p st = convert w auto p st.
Proof.
  intros HA HB. split; [reflexivity|].
  apply str_eqb_neq in HA, HB.
  unfold convert; simpl. rewrite HA, HB. reflexivity.
Qed.

(** X2.  In auto mode, on a path that satisfies the preconditions, the
    pdfplumber adapter is entered exactly once and the PyPDF2 adapter at
    most twice. *)
Lemma convert_auto_call_counts (p : Path) (st : state Path) :
  precondition w p = true ->
  count_calls fn_extract_with_pdfplumber (after (convert w auto p) st) =
    count_calls fn_extract_with_pdfplumber st + 1
  /\ count_calls fn_extract_with_pypdf2 (after (convert w auto p) st) <=
       count_calls fn_extract_with_pypdf2 st + 2.
Proof.
  intros Hpre. unfold after, count_calls.
  rewrite convert_valid_run by assumption; simpl.
  destruct (expected_pdfplumber w p) as [e|text]; simpl.
  { rewrite !calls_of_logged; simpl. rewrite !length_app; simpl. lia. }
  destruct (blank text); simpl.
  - destruct (expected_pypdf2 w p); simpl;
      rewrite !calls_of_logged; simpl; rewrite !length_app; simpl; lia.
  - rewrite !calls_of_logged; simpl. rewrite !length_app; simpl. lia.
Qed.

(** When pdfplumber raises, the PyPDF2 adapter is entered exactly once. *)
Lemma convert_auto_one_fallback_after_raise (p : Path) (st : state Path) (e : exn) :
  precondition w p = true ->
  expected_pdfplumber w p = inl e ->
  count_calls fn_extract_with_pypdf2 (after (convert w auto p) st) =
    count_calls fn_extract_with_pypdf2 st + 1.
Proof.
  intros Hpre HB. unfold after, count_calls.
  rewrite convert_valid_run by assumption; simpl. rewrite HB; simpl.
  rewrite !calls_of_logged; simpl. rewrite !length_app; simpl. lia.
Qed.

(** When pdfplumber returns a blank text and PyPDF2 raises, the PyPDF2
    adapter is entered twice: the handler of the [try] runs it again. *)
Lemma convert_auto_blank_then_raise_runs_pypdf2_twice
    (p : Path) (st : state Path) (text : str) (e : exn) :
  precondition w p = true ->
  expected_pdfplumber w p = inr text ->
  blank text = true ->
  expected_pypdf2 w p = inl e ->
  count_calls fn_extract_with_pypdf2 (after (convert w auto p) st) =
    count_calls fn_extract_with_pypdf2 st + 2.
Proof.
  intros Hpre HB Hblank HA. unfold after, count_calls.
  rewrite convert_valid_run by assumption; simpl.
  rewrite HB, Hblank, HA; simpl.
  rewrite !calls_of_logged; simpl. rewrite !length_app; simpl. lia.
Qed.
End Strategy.

(* ===================================================================== *)
(** * [batch_convert] *)
(* ===================================================================== *)

Section BatchFacts.
Context {Path : Type} {pathlib : Pathlib Path}.
Variable w : World Path.
Variable self : PDFConverter.
Variable output_dir : option Path.

(** One iteration of the loop never raises: it records the entry the
    specification expects, logs one call of [convert], and sets the output
    file when a write reaches it. *)
Lemma batch_step_run (results : dict entry) (p : Path) (st : state Path) :
  exists st',
    batch_step w self output_dir results p st =
      (inr (dict_set (str_path p) (batch_entry w self output_dir p) results), st')
    /\ calls_of fn_convert st' = calls_of fn_convert st ++ [p]
    /\ files st' = match batch_write w self output_dir p with
                   | Some (k, text) => dict_set k text (files st)
                   | None => files st
                   end.
Proof.
  pose proof (convert_logs_itself w self p st) as Hlog.
  pose proof (convert_files w self p st) as Hfiles.
  pose proof (convert_raises_Exception w self p st) as Hexc.
  pose proof (convert_result_state w self p st init_state) as Hres.
  unfold batch_step, batch_entry, batch_write, try_except_Exception, bind.
  rewrite <- Hres. unfold result, after in *.
  destruct (convert w self p st) as [[e|text] st1]; simpl in *.
  - rewrite (Hexc e eq_refl). unfold ret.
    exists st1. repeat split; assumption.
  - destruct output_dir as [dir|]; simpl.
    + unfold write_text, spoil, output_file.
      destruct (write_text_raises w (truediv dir (stem p ++ lit ".txt")) text)
        as [msg|]; simpl.
      * destruct (write_text_leaves w (truediv dir (stem p ++ lit ".txt")) text)
          as [content|]; simpl.
        -- eexists; split; [reflexivity|]. simpl.
           split; [exact Hlog | now rewrite Hfiles].
        -- exists st1. repeat split; assumption.
      * eexists; split; [reflexivity|]. simpl.
        split; [exact Hlog | now rewrite Hfiles].
    + exists st1. repeat split; assumption.
Qed.

(** The whole loop: it never raises, calls [convert] once per path in the
    order of the list, and leaves the report and the files the
    specification expects. *)
Lemma batch_loop_run (total n : nat) (paths : list Path) (results : dict entry)
    (st : state Path) :
  exists st',
    batch_loop w self output_dir total n paths results st =
      (inr (batch_report w self output_dir paths results), st')
    /\ calls_of fn_convert st' = calls_of fn_convert st ++ paths
    /\ files st' = batch_files w self output_dir paths (files st).
Proof.
  revert n results st; induction paths as [|p rest IH]; intros n results st; simpl.
  - eexists; split; [reflexivity|]. simpl.
    unfold calls_of; simpl. rewrite app_nil_r. split; reflexivity.
  - destruct (batch_step_run results p st) as (st1 & Hstep & Hcalls & Hfiles).
    unfold bind at 1. rewrite Hstep. unfold bind at 1.
    unfold write_stderr at 1.
    match goal with
    | |- context [batch_loop _ _ _ _ _ rest ?r ?s] =>
        destruct (IH (S n) r s) as (st' & Hloop & Hcalls' & Hfiles')
    end.
    exists st'. split; [exact Hloop|].
    unfold calls_of in *; simpl in *. split.
    + rewrite Hcalls', Hcalls, <- app_assoc. reflexivity.
    + rewrite Hfiles', Hfiles. unfold batch_files; simpl. reflexivity.
Qed.

(** [batch_convert] as a whole, bar included. *)
Lemma batch_convert_run (paths : list Path) (st : state Path) :
  exists st',
    batch_convert w self paths output_dir st =
      (inr (batch_report w self output_dir paths []), st')
    /\ calls_of fn_convert st' = calls_of fn_convert st ++ paths
    /\ files st' = batch_files w self output_dir paths (files st).
Proof.
  unfold batch_convert, bind, write_stderr.
  match goal with
  | |- context [batch_loop _ _ _ ?t ?n paths ?r ?s] =>
      destruct (batch_loop_run t n paths r s) as (st' & Hloop & Hcalls & Hfiles)
  end.
  exists st'. split; [exact Hloop|]. split; assumption.
Qed.

Lemma batch_entry_marked (p : Path) : marked (batch_entry w self output_dir p).
Proof.
  unfold batch_entry, marked.
  destruct (result _ _) as [e|text]; [right; reflexivity|].
  destruct output_dir as [dir|]; [|left; reflexivity].
  destruct (write_text_raises _ _ _); [right | left]; reflexivity.
Qed.

Lemma batch_report_marked (paths : list Path) (results : dict entry) :
  Forall marked (values results) ->
  Forall marked (values (batch_report w self output_dir paths results)).
Proof.
  revert results; induction paths as [|p rest IH]; intros results H; simpl; [exact H|].
  apply IH. apply values_dict_set; [apply batch_entry_marked | exact H].
Qed.

(** With pairwise distinct path strings every input adds its own key, in
    input order. *)
Lemma batch_report_keys (paths : list Path) (results : dict entry) :
  NoDup (keys results ++ map str_path paths) ->
  keys (batch_report w self output_dir paths results) =
    keys results ++ map str_path paths.
Proof.
  revert results; induction paths as [|p rest IH]; intros results Hnd; simpl.
  - now rewrite app_nil_r.
  - unfold batch_report in *; simpl.
    assert (Hnew : ~ In (str_path p) (keys results)).
    { intros Hin. apply NoDup_remove_2 in Hnd. apply Hnd.
      apply in_or_app; left; exact Hin. }
    rewrite IH; rewrite keys_dict_set_new by exact Hnew.
    + now rewrite <- app_assoc.
    + rewrite <- app_assoc. exact Hnd.
Qed.

(** The entry of an input that no later input shares its path string
    with is the one the specification expects for it. *)
Lemma batch_report_get (paths : list Path) (results : dict entry)
    (before after_ : list Path) (p : Path) :
  paths = before ++ p :: after_ ->
  ~ In (str_path p) (map str_path after_) ->
  dict_get (str_path p) (batch_report w self output_dir paths results) =
    Some (batch_entry w self output_dir p).
Proof.
  intros -> Hlast. unfold batch_report.
  rewrite fold_left_app; simpl.
  set (r := dict_set _ _ _).
  assert (Hr : dict_get (str_path p) r = Some (batch_entry w self output_dir p))
    by apply dict_get_set_same.
  clearbody r. revert r Hr.
  induction after_ as [|q rest IH]; intros r Hr; simpl; [exact Hr|].
  apply IH.
  - intros Hin. apply Hlast. right. exact Hin.
  - rewrite dict_get_set_other; [exact Hr|].
    intros E. apply Hlast. left. symmetry. exact E.
Qed.

Lemma batch_report_get_distinct (paths : list Path) (p : Path) :
  NoDup (map str_path paths) ->
  In p paths ->
  dict_get (str_path p) (batch_report w self output_dir paths []) =
    Some (batch_entry w self output_dir p).
Proof.
  intros Hnd Hin. apply in_split in Hin as (before & after_ & Heq).
  apply (batch_report_get paths [] before after_ p Heq).
  subst paths. rewrite map_app in Hnd; simpl in Hnd.
  apply NoDup_remove_2 in Hnd. intros Hin. apply Hnd.
  apply in_or_app; right; exact Hin.
Qed.

(** Where an entry of the report comes from. *)
Lemma batch_report_origin (paths : list Path) (results : dict entry)
    (k : str) (r : entry) :
  dict_get k (batch_report w self output_dir paths results) = Some r ->
  dict_get k results = Some r
  \/ exists p, In p paths /\ k = str_path p /\ r = batch_entry w self output_dir p.
Proof.
  revert results; induction paths as [|p rest IH]; intros results H; simpl in *.
  - left; exact H.
  - apply IH in H as [H|(q & Hq & Hk & Hr)].
    + destruct (str_eqb k (str_path p)) eqn:E.
      * apply str_eqb_eq in E; subst k.
        rewrite dict_get_set_same in H. injection H as <-.
        right. exists p. auto.
      * apply str_eqb_neq in E.
        rewrite dict_get_set_other in H by exact E. left; exact H.
    + right. exists q. auto.
Qed.

(** The file an input wrote keeps its content as long as no later input
    writes to the same path. *)
Lemma batch_files_get (paths before after_ : list Path) (p : Path)
    (fs : dict str) (k text : str) :
  paths = before ++ p :: after_ ->
  batch_write w self output_dir p = Some (k, text) ->
  Forall (fun q => forall k' t', batch_write w self output_dir q = Some (k', t') ->
                                 k' <> k) after_ ->
  dict_get k (batch_files w self output_dir paths fs) = Some text.
Proof.
  intros -> Hw Hlater. unfold batch_files.
  rewrite fold_left_app; simpl. rewrite Hw.
  set (f := dict_set _ _ _).
  assert (Hf : dict_get k f = Some text) by apply dict_get_set_same.
  clearbody f. revert f Hf.
  induction Hlater as [|q rest Hq Hrest IH]; intros f Hf; simpl; [exact Hf|].
  apply IH.
  destruct (batch_write w self output_dir q) as [[k' t']|]; [|exact Hf].
  rewrite dict_get_set_other; [exact Hf|].
  intros E. exact (Hq k' t' eq_refl (eq_sym E)).
Qed.
End BatchFacts.

(** The counting of [main] on marked entries: it never raises and counts
    the entries with the given status. *)
Lemma sum_status_run {Path : Type} (s : str) (rs : list entry) (acc : nat)
    (st : state Path) :
  Forall marked rs ->
  sum_status s rs acc st = (inr (acc + count_status s rs), st).
Proof.
  intros H; revert acc; induction H as [|r rest Hr Hrest IH]; intros acc; simpl.
  - unfold count_status; simpl. now rewrite Nat.add_0_r.
  - assert (Hc : count_status s (r :: rest) =
                 (if has_status s r then 1 else 0) + count_status s rest).
    { unfold count_status; simpl. destruct (has_status s r); reflexivity. }
    rewrite Hc. unfold bind, getitem, has_status.
    destruct Hr as [Hr|Hr]; rewrite Hr; unfold ret; cbv beta iota; rewrite IH;
      destruct (str_eqb _ s); do 2 f_equal; lia.
Qed.

Lemma count_status_total (rs : list entry) :
  Forall marked rs ->
  count_status (lit "success") rs + count_status (lit "error") rs = List.length rs.
Proof.
  unfold count_status, has_status.
  induction 1 as [|r rest Hr Hrest IH]; simpl; [reflexivity|].
  destruct Hr as [Hr|Hr]; rewrite Hr; simpl; lia.
Qed.

(* ===================================================================== *)
(** * The batch report: the claims on [batch_convert] *)
(* ===================================================================== *)

Section Batch.
Context {Path : Type} {pathlib : Pathlib Path}.
Variable w : World Path.

(** C7, amended.  For a list of N input paths whose strings are pairwise
    distinct, [batch_convert] never raises; it calls [convert] once per
    path, in the order of the list, whether or not earlier conversions
    failed; the report has one entry per path, N in all, each the entry of
    its path and each marked ['success'] or ['error']; and the two counts
    [main] takes of it add up to N. *)
Theorem batch_convert_reports_every_path
    (self : PDFConverter) (output_dir : option Path) (paths : list Path)
    (st : state Path) :
  NoDup (map str_path paths) ->
  exists report st',
    batch_convert w self paths output_dir st = (inr report, st')
    /\ calls_of fn_convert st' = calls_of fn_convert st ++ paths
    /\ keys report = map str_path paths
    /\ List.length report = List.length paths
    /\ (forall p, In p paths ->
          dict_get (str_path p) report = Some (batch_entry w self output_dir p))
    /\ Forall marked (values report)
    /\ exists success_count error_count,
         sum_status (lit "success") (values report) 0 st' = (inr success_count, st')
         /\ sum_status (lit "error") (values report) 0 st' = (inr error_count, st')
         /\ success_count + error_count = List.length paths.
Proof.
  intros Hnd.
  destruct (batch_convert_run w self output_dir paths st) as (st' & Hrun & Hcalls & _).
  set (report := batch_report w self output_dir paths []) in *.
  assert (Hkeys : keys report = map str_path paths).
  { unfold report. rewrite batch_report_keys; [reflexivity | exact Hnd]. }
  assert (Hlen : List.length report = List.length paths).
  { rewrite <- (length_map fst report). fold (keys report).
    rewrite Hkeys. apply length_map. }
  assert (Hmarked : Forall marked (values report)).
  { apply batch_report_marked. constructor. }
  exists report, st'. repeat (split; [assumption|]).
  split.
  { intros p Hin. now apply batch_report_get_distinct. }
  split; [exact Hmarked|].
  exists (count_status (lit "success") (values report)),
         (count_status (lit "error") (values report)).
  rewrite !sum_status_run by exact Hmarked. simpl.
  repeat split.
  rewrite count_status_total by exact Hmarked.
  unfold values. rewrite length_map. exact Hlen.
Qed.

(** X4.  For every list of paths, repeated or not, the loop never raises,
    calls [convert] on every path in the order of the list, and marks every
    entry, so the two counts add up to the number of entries. *)
Lemma batch_convert_never_aborts
    (self : PDFConverter) (output_dir : option Path) (paths : list Path)
    (st : state Path) :
  exists report st',
    batch_convert w self paths output_dir st = (inr report, st')
    /\ calls_of fn_convert st' = calls_of fn_convert st ++ paths
    /\ Forall marked (values report)
    /\ count_status (lit "success") (values report)
       + count_status (lit "error") (values report) = List.length report.
Proof.
  destruct (batch_convert_run w self output_dir paths st) as (st' & Hrun & Hcalls & _).
  assert (Hmarked : Forall marked (values (batch_report w self output_dir paths []))).
  { apply batch_report_marked. constructor. }
  eexists _, st'. repeat (split; [eassumption|]).
  rewrite count_status_total by exact Hmarked.
  unfold values. apply length_map.
Qed.

(** C10.  In batch mode with an output directory, every entry marked
    ['success'] names the output [<output_dir>/<stem>.txt] of its input.
    For two inputs with distinct path strings and equal stems that both
    convert and whose output can be written, the report holds a
    ['success'] entry for each, both with that same output path, and the
    file holds the text of the later one (no input after it being written
    to the same file). *)
Theorem batch_outputs_named_by_stem
    (self : PDFConverter) (dir : Path)
    (before : list Path) (p1 : Path) (between : list Path) (p2 : Path)
    (rest : list Path) (t1 t2 : str) (st : state Path) :
  NoDup (map str_path (before ++ p1 :: between ++ p2 :: rest)) ->
  stem p1 = stem p2 ->
  result (convert w self p1) st = inr t1 ->
  result (convert w self p2) st = inr t2 ->
  write_text_raises w (output_file dir p1) t1 = None ->
  write_text_raises w (output_file dir p2) t2 = None ->
  Forall (fun q => str_path (output_file dir q) <> str_path (output_file dir p2))
         rest ->
  exists report st',
    batch_convert w self (before ++ p1 :: between ++ p2 :: rest) (Some dir) st
      = (inr report, st')
    /\ (forall k r,
          dict_get k report = Some r ->
          dict_get (lit "status") r = Some (lit "success") ->
          exists q, In q (before ++ p1 :: between ++ p2 :: rest)
                    /\ k = str_path q
                    /\ r = success_output
                             (str_path (truediv dir (stem q ++ lit ".txt"))))
    /\ dict_get (str_path p1) report =
         Some (success_output (str_path (truediv dir (stem p1 ++ lit ".txt"))))
    /\ dict_get (str_path p2) report =
         Some (success_output (str_path (truediv dir (stem p1 ++ lit ".txt"))))
    /\ dict_get (str_path (truediv dir (stem p1 ++ lit ".txt"))) (files st')
         = Some t2.
Proof.
  intros Hnd Hstem H1 H2 Hw1 Hw2 Hlast.
  set (paths := before ++ p1 :: between ++ p2 :: rest) in *.
  rewrite (convert_result_state w self p1 st init_state) in H1.
  rewrite (convert_result_state w self p2 st init_state) in H2.
  assert (E1 : batch_entry w self (Some dir) p1 =
               success_output (str_path (output_file dir p1))).
  { unfold batch_entry. now rewrite H1, Hw1. }
  assert (E2 : batch_entry w self (Some dir) p2 =
               success_output (str_path (output_file dir p2))).
  { unfold batch_entry. now rewrite H2, Hw2. }
  assert (Hout : output_file dir p2 = output_file dir p1).
  { unfold output_file. now rewrite Hstem. }
  pose proof (batch_report_get_distinct w self (Some dir) paths) as Hget.
  destruct (batch_convert_run w self (Some dir) paths st)
    as (st' & Hrun & _ & Hfiles).
  exists (batch_report w self (Some dir) paths []), st'.
  split; [exact Hrun|]. split; [|split; [|split]].
  - intros k r Hk Hs.
    apply batch_report_origin in Hk as [Hk|(q & Hq & -> & ->)]; [discriminate|].
    exists q. split; [exact Hq|]. split; [reflexivity|].
    unfold batch_entry in *.
    destruct (result (convert w self q) init_state) as [e|text];
      [vm_compute in Hs; discriminate|].
    destruct (write_text_raises w (output_file dir q) text);
      [vm_compute in Hs; discriminate | reflexivity].
  - rewrite Hget, E1; [reflexivity | exact Hnd |].
    unfold paths. apply in_or_app; right; left; reflexivity.
  - rewrite Hget, E2, Hout; [reflexivity | exact Hnd |].
    unfold paths. apply in_or_app; right; right.
    apply in_or_app; right; left; reflexivity.
  - rewrite Hfiles. fold (output_file dir p1). rewrite <- Hout.
    apply (batch_files_get w self (Some dir) paths
             (before ++ p1 :: between) rest p2).
    + unfold paths. rewrite <- app_assoc. reflexivity.
    + unfold batch_write. now rewrite H2, Hw2.
    + eapply Forall_impl; [|exact Hlast].
      intros q Hq k' t' Hwq. unfold batch_write in Hwq.
      destruct (result (convert w self q) init_state) as [e|text]; [discriminate|].
      destruct (write_text_raises w (output_file dir q) text).
      * destruct (write_text_leaves w (output_file dir q) text); [|discriminate].
        injection Hwq as <- _. exact Hq.
      * injection Hwq as <- _. exact Hq.
Qed.
End Batch.

(* ===================================================================== *)
(** * The command line *)
(* ===================================================================== *)

Section CommandLineFacts.
Context {Path : Type} {pathlib : Pathlib Path}.
Variable w : World Path.

Lemma reportable_marked (r : entry) : reportable r -> marked r.
Proof. intros [H|[H _]]; [left | right]; exact H. Qed.

Lemma batch_entry_reportable (self : PDFConverter) (output_dir : option Path)
    (p : Path) :
  reportable (batch_entry w self output_dir p).
Proof.
  unfold batch_entry, reportable.
  destruct (result _ _) as [e|text].
  { right; split; [reflexivity | eexists; reflexivity]. }
  destruct output_dir as [dir|]; [|left; reflexivity].
  destruct (write_text_raises _ _ _); [right | left; reflexivity].
  split; [reflexivity | eexists; reflexivity].
Qed.

Lemma batch_report_reportable (self : PDFConverter) (output_dir : option Path)
    (paths : list Path) (results : dict entry) :
  Forall reportable (values results) ->
  Forall reportable (values (batch_report w self output_dir paths results)).
Proof.
  revert results; induction paths as [|p rest IH]; intros results H; simpl; [exact H|].
  apply IH. apply values_dict_set; [apply batch_entry_reportable | exact H].
Qed.

(** The verbose listing never raises on a report of [batch_convert]. *)
Lemma echo_errors_run (items : dict entry) (st : state Path) :
  Forall reportable (values items) ->
  exists st', echo_errors items st = (inr tt, st').
Proof.
  revert st; induction items as [|[path r] rest IH]; intros st H; simpl.
  - now exists st.
  - inversion H as [|? ? Hr Hrest]; subst.
    unfold bind, getitem.
    destruct Hr as [Hs|[Hs [msg Hm]]]; rewrite Hs; unfold ret; cbv beta iota.
    + replace (str_eqb (lit "success") (lit "error")) with false by reflexivity.
      now apply IH.
    + replace (str_eqb (lit "error") (lit "error")) with true by reflexivity.
      rewrite Hm. cbv beta iota. unfold echo. now apply IH.
Qed.

(** A single file: [main] exits with 1 when the conversion or the writing
    of the output raises, and returns otherwise. *)
Lemma main_single_file (a : Args) (st : state Path) :
  is_file w (Path_ (arg_input_path a)) = true ->
  exists st',
    main w a st =
      (match result (convert w (PDFConverter_init (arg_method a))
                       (Path_ (arg_input_path a))) st with
       | inl _ => inl (SystemExit 1)
       | inr text =>
           match if_given (arg_output a) with
           | Some output =>
               match write_text_raises w (Path_ output) text with
               | Some _ => inl (SystemExit 1)
               | None => inr tt
               end
           | None => inr tt
           end
       end, st').
Proof.
  intros Hfile. unfold main. rewrite Hfile.
  set (conv := PDFConverter_init (arg_method a)).
  set (input := Path_ (arg_input_path a)).
  assert (Hgen : forall st0,
    exists st',
      try_except_Exception
        (text <- convert w conv input ;;
         match if_given (arg_output a) with
         | Some output =>
             write_text w (Path_ output) text ;;
             echo (check_mark ++ lit " Successfully converted to: "
                     ++ str_path (Path_ output))
         | None =>
             echo (newline ++ rule) ;; echo (lit "EXTRACTED TEXT:") ;;
             echo rule ;; echo text
         end)
        (fun e => echo_err (cross_mark ++ lit " Error: " ++ str_exn e) ;; sys_exit 1)
        st0 =
      (match result (convert w conv input) st with
       | inl _ => inl (SystemExit 1)
       | inr text =>
           match if_given (arg_output a) with
           | Some output =>
               match write_text_raises w (Path_ output) text with
               | Some _ => inl (SystemExit 1)
               | None => inr tt
               end
           | None => inr tt
           end
       end, st')).
  { intros st0.
    rewrite (convert_result_state w conv input st st0).
    pose proof (convert_raises_Exception w conv input st0) as Hexc.
    unfold result in *. unfold try_except_Exception, bind.
    destruct (convert w conv input st0) as [[e|text] st1]; simpl in *.
    - rewrite (Hexc e eq_refl). eexists; reflexivity.
    - destruct (if_given (arg_output a)) as [output|].
      + unfold write_text, spoil, bind.
        destruct (write_text_raises w (Path_ output) text); simpl;
          [destruct (write_text_leaves w (Path_ output) text); simpl|];
          eexists; reflexivity.
      + eexists; reflexivity. }
  unfold bind at 1.
  destruct (arg_verbose a); simpl; apply Hgen.
Qed.

(** A directory: [main] exits with 0 when the glob finds nothing; otherwise
    it returns, whatever the conversions do, unless the output directory
    cannot be made. *)
Lemma main_directory (a : Args) (st : state Path) :
  is_file w (Path_ (arg_input_path a)) = false ->
  is_dir w (Path_ (arg_input_path a)) = true ->
  exists st',
    main w a st =
      (match glob w (Path_ (arg_input_path a))
               (if arg_recursive a then lit "**/*.pdf" else lit "*.pdf") with
       | [] => inl (SystemExit 0)
       | _ :: _ =>
           match if_given (arg_output a) with
           | Some output =>
               match mkdir_raises w (Path_ output) with
               | Some msg => inl (LibraryError msg)
               | None => inr tt
               end
           | None => inr tt
           end
       end, st').
Proof.
  intros Hfile Hdir. unfold main. rewrite Hfile, Hdir.
  set (conv := PDFConverter_init (arg_method a)).
  set (input := Path_ (arg_input_path a)).
  destruct (glob w input _) as [|f fs]; [eexists; reflexivity|].
  set (pdf_files := f :: fs).
  assert (Hrest : forall (output_dir : option Path) (st0 : state Path),
    exists st',
      (results <- batch_convert w conv pdf_files output_dir ;;
       success_count <- sum_status (lit "success") (values results) 0 ;;
       error_count <- sum_status (lit "error") (values results) 0 ;;
       echo (newline ++ check_mark ++ lit " Successfully converted: "
               ++ str_of_nat success_count ++ lit "/"
               ++ str_of_nat (List.length pdf_files)) ;;
       if 0 <? error_count then
         echo (cross_mark ++ lit " Failed: " ++ str_of_nat error_count) ;;
         if arg_verbose a then
           echo (newline ++ lit "Errors:") ;; echo_errors results
         else ret tt
       else ret tt) st0 = (inr tt, st')).
  { intros output_dir st0.
    destruct (batch_convert_run w conv output_dir pdf_files st0)
      as (st1 & Hrun & _ & _).
    assert (Hrep : Forall reportable
                     (values (batch_report w conv output_dir pdf_files [])))
      by (apply batch_report_reportable; constructor).
    assert (Hmarked : Forall marked
                        (values (batch_report w conv output_dir pdf_files [])))
      by (eapply Forall_impl; [apply reportable_marked | exact Hrep]).
    unfold bind at 1. rewrite Hrun.
    unfold bind at 1. rewrite sum_status_run by exact Hmarked.
    unfold bind at 1. rewrite sum_status_run by exact Hmarked.
    unfold bind at 1. unfold echo at 1.
    destruct (0 <? _); [|eexists; reflexivity].
    unfold bind at 1. unfold echo at 1.
    destruct (arg_verbose a); [|eexists; reflexivity].
    unfold bind at 1. unfold echo at 1.
    apply echo_errors_run. exact Hrep. }
  unfold bind at 1. unfold echo at 1.
  unfold bind at 1.
  destruct (if_given (arg_output a)) as [output|].
  - unfold bind at 1. unfold mkdir.
    destruct (mkdir_raises w (Path_ output)) as [msg|]; [eexists; reflexivity|].
    unfold ret at 1. unfold ret at 1. apply Hrest.
  - unfold ret at 1. apply Hrest.
Qed.

(** Neither a file nor a directory: [main] exits with 1. *)
Lemma main_other (a : Args) (st : state Path) :
  is_file w (Path_ (arg_input_path a)) = false ->
  is_dir w (Path_ (arg_input_path a)) = false ->
  exists st', main w a st = (inl (SystemExit 1), st').
Proof.
  intros Hfile Hdir. unfold main. rewrite Hfile, Hdir.
  eexists; reflexivity.
Qed.
End CommandLineFacts.

Section ExitStatus.
Context {Path : Type} {pathlib : Pathlib Path}.
Variable w : World Path.

(** C8, amended.  The exit status of the process, case by case.  Arguments
    click refuses (an input path that does not exist, a method outside
    the three choices) end it with the usage status 2, before [main]
    runs.  A single file: 0 when the conversion succeeds (and the output,
    when one is asked for, is written), 1 when the conversion or the
    writing raises.  A directory: 0 when it holds no PDF, and 0 after a
    batch whatever the conversions did (1 only when the output directory
    cannot be made, before the batch).  A path that exists and is neither
    a file nor a directory: 1. *)
Theorem exit_status_by_case (a : Args) (st : state Path) :
  exit_status w a st =
    if negb (click_accepts w a) then 2%N
    else if is_file w (Path_ (arg_input_path a)) then
      match result (convert w (PDFConverter_init (arg_method a))
                      (Path_ (arg_input_path a))) st with
      | inl _ => 1%N
      | inr text =>
          match if_given (arg_output a) with
          | Some output =>
              match write_text_raises w (Path_ output) text with
              | Some _ => 1%N
              | None => 0%N
              end
          | None => 0%N
          end
      end
    else if is_dir w (Path_ (arg_input_path a)) then
      match glob w (Path_ (arg_input_path a))
              (if arg_recursive a then lit "**/*.pdf" else lit "*.pdf") with
      | [] => 0%N
      | _ :: _ =>
          match if_given (arg_output a) with
          | Some output =>
              match mkdir_raises w (Path_ output) with
              | Some _ => 1%N
              | None => 0%N
              end
          | None => 0%N
          end
      end
    else 1%N.
Proof.
  unfold exit_status, main_command.
  destruct (click_accepts w a); simpl; [|reflexivity].
  destruct (is_file w (Path_ (arg_input_path a))) eqn:Hfile.
  - destruct (main_single_file w a st Hfile) as [st' ->].
    destruct (result _ st) as [e|text]; [reflexivity|].
    destruct (if_given (arg_output a)) as [output|]; [|reflexivity].
    destruct (write_text_raises w (Path_ output) text); reflexivity.
  - destruct (is_dir w (Path_ (arg_input_path a))) eqn:Hdir.
    + destruct (main_directory w a st Hfile Hdir) as [st' ->].
      destruct (glob w _ _); [reflexivity|].
      destruct (if_given (arg_output a)) as [output|]; [|reflexivity].
      destruct (mkdir_raises w (Path_ output)); reflexivity.
    + destruct (main_other w a st Hfile Hdir) as [st' ->]. reflexivity.
Qed.
End ExitStatus.

(* ===================================================================== *)
(** * The claims on concrete inputs *)
(* ===================================================================== *)

(** C1 on the corrupt file: pdfplumber raises, PyPDF2 raises too, and the
    failure that surfaces is the one of PyPDF2. *)
Lemma fallback_when_pdfplumber_raises_on_broken :
  result (convert the_world auto (lit "docs/broken.pdf")) init_state
    = result (convert the_world pypdf2 (lit "docs/broken.pdf")) init_state
  /\ result (convert the_world auto (lit "docs/broken.pdf")) init_state
     = inl (BackendFailure (lit "PyPDF2") (lit "EOF marker not found"))
  /\ calls (after (convert the_world auto (lit "docs/broken.pdf")) init_state)
     = [(fn_convert, lit "docs/broken.pdf");
        (fn_extract_with_pdfplumber, lit "docs/broken.pdf");
        (fn_extract_with_pypdf2, lit "docs/broken.pdf")].
Proof.
  pose proof (convert_auto_falls_back_when_pdfplumber_raises the_world
                (lit "docs/broken.pdf") init_state
                (BackendFailure (lit "pdfplumber") (lit "No /Root object"))) as H.
  by_computation H. destruct H as (Hsame & Hres & Hcalls & _).
  split; [exact Hsame|]. split; [exact Hres | exact Hcalls].
Defined.

(** C1 on a document pdfplumber cannot open and PyPDF2 can read: the text
    of PyPDF2, all pages. *)
Example fallback_gives_pypdf2_text :
  result (convert
            (example_world
               [{| pdf_path := lit "odd.pdf";
                   pdf_pypdf2 := inr [inr (lit "one"); inr []; inr (lit "three")];
                   pdf_pdfplumber := inl (lit "No /Root object") |}] [] [])
            auto (lit "odd.pdf")) init_state
    = inr (lit "one" ++ newline ++ newline ++ lit "three").
Proof. reflexivity. Qed.

(** C2 on the scan, where pdfplumber returns a single space and PyPDF2
    raises, and on the blank document, where no page has text for
    pdfplumber and PyPDF2 yields two empty pages. *)
Lemma fallback_when_pdfplumber_blank_on_scan :
  (result (convert the_world auto (lit "docs/scan.pdf")) init_state
     = result (convert the_world pypdf2 (lit "docs/scan.pdf")) init_state
   /\ result (convert the_world auto (lit "docs/scan.pdf")) init_state
      = inl (BackendFailure (lit "PyPDF2") (lit "EOF marker not found"))
   /\ calls_of fn_extract_with_pdfplumber
        (after (convert the_world auto (lit "docs/scan.pdf")) init_state)
      = [lit "docs/scan.pdf"])
  /\ (result (extract_with_pdfplumber blank_world auto (lit "blank.pdf")) init_state
       = inr []
      /\ result (convert blank_world auto (lit "blank.pdf")) init_state
         = inr (join newline [[]; []])).
Proof.
  split.
  - pose proof (convert_auto_falls_back_when_pdfplumber_blank the_world
                  (lit "docs/scan.pdf") init_state) as H.
    by_computation H. destruct H as [H _].
    specialize (H (lit " ") eq_refl eq_refl).
    destruct H as (Hsame & Hres & Hcalls).
    split; [exact Hsame|]. split; [exact Hres | exact Hcalls].
  - pose proof (convert_auto_falls_back_when_pdfplumber_blank blank_world
                  (lit "blank.pdf") init_state) as H.
    by_computation H. destruct H as [_ H].
    specialize (H [None; Some []] eq_refl eq_refl).
    destruct H as (Hempty & _ & Htexts).
    split; [exact Hempty|]. exact (Htexts [[]; []] eq_refl).
Defined.

(** C3.  On the scan, pdfplumber succeeds with a blank text and PyPDF2
    raises: in auto mode the PyPDF2 adapter is then entered twice on the
    same path (once inside the [try], once more by its handler), while the
    pdfplumber adapter is entered once. *)
Theorem convert_auto_enters_pypdf2_twice_on_scan :
  precondition the_world (lit "docs/scan.pdf") = true
  /\ result (extract_with_pdfplumber the_world auto (lit "docs/scan.pdf")) init_state
       = inr (lit " ")
  /\ result (extract_with_pypdf2 the_world auto (lit "docs/scan.pdf")) init_state
       = inl (BackendFailure (lit "PyPDF2") (lit "EOF marker not found"))
  /\ calls (after (convert the_world auto (lit "docs/scan.pdf")) init_state)
       = [(fn_convert, lit "docs/scan.pdf");
          (fn_extract_with_pdfplumber, lit "docs/scan.pdf");
          (fn_extract_with_pypdf2, lit "docs/scan.pdf");
          (fn_extract_with_pypdf2, lit "docs/scan.pdf")]
  /\ count_calls fn_extract_with_pypdf2
       (after (convert the_world auto (lit "docs/scan.pdf")) init_state) = 2.
Proof. repeat split. Qed.

(** C4 on a path that does not exist and has no [.pdf] suffix either: the
    failure is "not found". *)
Lemma rejects_missing_text_file :
  exists e,
    convert the_world pdfplumber (lit "docs/missing.txt") init_state
      = (inl e, logged fn_convert (lit "docs/missing.txt") init_state)
    /\ is_InvalidInput e = true
    /\ e = (if exists_ the_world (lit "docs/missing.txt")
            then ValueError (lit "File must be a PDF: " ++ str_path (lit "docs/missing.txt"))
            else FileNotFoundError
                   (lit "PDF file not found: " ++ str_path (lit "docs/missing.txt")))
    /\ calls_of fn_extract_with_pypdf2
         (after (convert the_world pdfplumber (lit "docs/missing.txt")) init_state)
       = calls_of fn_extract_with_pypdf2 init_state
    /\ calls_of fn_extract_with_pdfplumber
         (after (convert the_world pdfplumber (lit "docs/missing.txt")) init_state)
       = calls_of fn_extract_with_pdfplumber init_state.
Proof.
  apply (convert_rejects_invalid_input the_world pdfplumber
           (lit "docs/missing.txt") init_state).
  reflexivity.
Defined.

(** C4 on a file that exists and is no PDF. *)
Example rejects_notes_txt :
  result (convert the_world auto (lit "docs/notes.txt")) init_state
    = inl (ValueError (lit "File must be a PDF: docs/notes.txt"))
  /\ calls (after (convert the_world auto (lit "docs/notes.txt")) init_state)
       = [(fn_convert, lit "docs/notes.txt")].
Proof. split; reflexivity. Qed.

(** C5 on the report: the blank page is an empty segment. *)
Lemma pypdf2_joins_all_pages_of_report :
  result (convert the_world pypdf2 (lit "docs/report.pdf")) init_state =
    match pages_in_order (PyPDF2_PdfReader the_world (lit "docs/report.pdf")) with
    | inr texts => inr (join newline texts)
    | inl detail => inl (BackendFailure (lit "PyPDF2") detail)
    end.
Proof.
  apply (convert_pypdf2_joins_all_pages the_world (lit "docs/report.pdf") init_state).
  reflexivity.
Defined.

Example pypdf2_report_text :
  result (convert the_world pypdf2 (lit "docs/report.pdf")) init_state
    = inr (lit "Title" ++ newline ++ newline ++ lit "End").
Proof. reflexivity. Qed.

(** C5 on a document whose second page raises. *)
Example pypdf2_page_failure :
  result (convert the_world pypdf2 (lit "docs/old/report.pdf")) init_state
    = inl (Exception (lit "PyPDF2 extraction failed: bad page")).
Proof. reflexivity. Qed.

(** C6 on the report: the page without text leaves no segment. *)
Lemma pdfplumber_joins_pages_with_text_of_report :
  result (convert the_world pdfplumber (lit "docs/report.pdf")) init_state =
    match pages_in_order (pdfplumber_open the_world (lit "docs/report.pdf")) with
    | inr texts => inr (join newline (with_text texts))
    | inl detail => inl (BackendFailure (lit "pdfplumber") detail)
    end.
Proof.
  apply (convert_pdfplumber_joins_pages_with_text the_world
           (lit "docs/report.pdf") init_state).
  reflexivity.
Defined.

Example pdfplumber_report_text :
  result (convert the_world pdfplumber (lit "docs/report.pdf")) init_state
    = inr (lit "Title" ++ newline ++ lit "End").
Proof. reflexivity. Qed.

Example pdfplumber_failure_names_backend :
  result (convert the_world pdfplumber (lit "docs/broken.pdf")) init_state
    = inl (Exception (lit "pdfplumber extraction failed: No /Root object")).
Proof. reflexivity. Qed.

(** C7, as stated, fails on a list that names a path twice: two inputs, one
    entry. *)
Lemma batch_convert_repeated_path_one_entry :
  exists report st',
    batch_convert the_world auto [lit "docs/report.pdf"; lit "docs/report.pdf"] None
      init_state = (inr report, st')
    /\ List.length [lit "docs/report.pdf"; lit "docs/report.pdf"] = 2
    /\ List.length report = 1
    /\ count_status (lit "success") (values report)
       + count_status (lit "error") (values report) = 1.
Proof. eexists _, _. repeat split. Qed.

(** C7, amended, on the directory listing: the corrupt file in the middle
    does not stop the batch. *)
Lemma batch_convert_reports_docs :
  exists report st',
    batch_convert the_world auto
      [lit "docs/report.pdf"; lit "docs/broken.pdf"; lit "docs/scan.pdf"] None
      init_state = (inr report, st')
    /\ calls_of fn_convert st' =
         calls_of fn_convert init_state
           ++ [lit "docs/report.pdf"; lit "docs/broken.pdf"; lit "docs/scan.pdf"]
    /\ keys report =
         map str_path [lit "docs/report.pdf"; lit "docs/broken.pdf"; lit "docs/scan.pdf"]
    /\ List.length report =
         List.length [lit "docs/report.pdf"; lit "docs/broken.pdf"; lit "docs/scan.pdf"]
    /\ (forall p,
          In p [lit "docs/report.pdf"; lit "docs/broken.pdf"; lit "docs/scan.pdf"] ->
          dict_get (str_path p) report = Some (batch_entry the_world auto None p))
    /\ Forall marked (values report)
    /\ exists success_count error_count,
         sum_status (lit "success") (values report) 0 st' = (inr success_count, st')
         /\ sum_status (lit "error") (values report) 0 st' = (inr error_count, st')
         /\ success_count + error_count =
              List.length [lit "docs/report.pdf"; lit "docs/broken.pdf"; lit "docs/scan.pdf"].
Proof.
  apply (batch_convert_reports_every_path the_world auto None
           [lit "docs/report.pdf"; lit "docs/broken.pdf"; lit "docs/scan.pdf"]
           init_state).
  distinct_strings.
Defined.

Example batch_docs_counts :
  count_status (lit "success")
    (values (batch_report the_world auto None
               [lit "docs/report.pdf"; lit "docs/broken.pdf"; lit "docs/scan.pdf"] []))
    = 1
  /\ count_status (lit "error")
       (values (batch_report the_world auto None
                  [lit "docs/report.pdf"; lit "docs/broken.pdf"; lit "docs/scan.pdf"] []))
     = 2.
Proof. split; reflexivity. Qed.

(** C8, as stated, fails on an input path that does not exist: click
    refuses it, and the process ends with status 2, not 1. *)
Lemma missing_input_path_exits_with_2 :
  exists_ the_world (Path_ (lit "docs/missing.pdf")) = false
  /\ exit_status the_world (cli_args "docs/missing.pdf" None "auto" false false)
       init_state = 2%N
  /\ exit_status the_world (cli_args "docs/missing.pdf" None "auto" false false)
       init_state <> 1%N.
Proof. repeat split. discriminate. Qed.

(** C8, amended, on the cases of the claim. *)
Example exit_status_examples :
  (* a single file that converts *)
  exit_status the_world (cli_args "docs/report.pdf" (Some "report.txt"%string) "auto" false false)
    init_state = 0%N
  (* a single file that no backend can read *)
  /\ exit_status the_world (cli_args "docs/broken.pdf" None "auto" false true)
       init_state = 1%N
  (* a batch with two failures out of three *)
  /\ exit_status the_world (cli_args "docs" (Some "out"%string) "pypdf2" false true)
       init_state = 0%N
  (* a directory without PDFs *)
  /\ exit_status the_world (cli_args "empty" None "auto" true false)
       init_state = 0%N
  (* a path that is neither a file nor a directory *)
  /\ exit_status the_world (cli_args "/dev/null" None "auto" false false)
       init_state = 1%N
  (* a method click does not offer *)
  /\ exit_status the_world (cli_args "docs/report.pdf" None "fast" false false)
       init_state = 2%N.
Proof. repeat split. Qed.

(** The scenario of the specification: [a.pdf] can be read, [b.pdf] is
    corrupt; one output is written, one entry is in error, the status is 0,
    and the summary line says 1/2. *)
Example batch_scenario :
  let a_pdf := {| pdf_path := lit "in/a.pdf";
                  pdf_pypdf2 := inr [inr (lit "A")];
                  pdf_pdfplumber := inr [inr (Some (lit "A"))] |} in
  let b_pdf := {| pdf_path := lit "in/b.pdf";
                  pdf_pypdf2 := inl (lit "EOF marker not found");
                  pdf_pdfplumber := inl (lit "No /Root object") |} in
  let run := main_command
               (example_world [a_pdf; b_pdf]
                  [(lit "in", [lit "in/a.pdf"; lit "in/b.pdf"])] [])
               (cli_args "in" (Some "out"%string) "auto" false false) init_state in
  fst run = 0%N
  /\ files (snd run) = [(lit "out/a.txt", lit "A")]
  /\ nth 1 (stdout (snd run)) [] =
       newline ++ check_mark ++ lit " Successfully converted: 1/2".
Proof. repeat split. Qed.

(** C9 on a method string nobody offers. *)
Lemma unknown_method_fast_is_auto :
  method (PDFConverter_init (lit "fast")) = lit "fast"
  /\ convert the_world (PDFConverter_init (lit "fast")) (lit "docs/scan.pdf") init_state
     = convert the_world auto (lit "docs/scan.pdf") init_state.
Proof.
  apply (convert_unknown_method_is_auto the_world (lit "fast")
           (lit "docs/scan.pdf") init_state);
    vm_compute; discriminate.
Defined.

(** C10 on the recursive listing of [docs]: the two reports share the stem,
    both entries name [out/report.txt], and the file holds the older draft,
    which is converted later. *)
Lemma batch_outputs_of_docs_recursive :
  exists report st',
    batch_convert the_world auto
      ([] ++ lit "docs/report.pdf" :: [lit "docs/broken.pdf"]
          ++ lit "docs/old/report.pdf" :: [lit "docs/scan.pdf"])
      (Some (lit "out")) init_state = (inr report, st')
    /\ (forall k r,
          dict_get k report = Some r ->
          dict_get (lit "status") r = Some (lit "success") ->
          exists q, In q ([] ++ lit "docs/report.pdf" :: [lit "docs/broken.pdf"]
                             ++ lit "docs/old/report.pdf" :: [lit "docs/scan.pdf"])
                    /\ k = str_path q
                    /\ r = success_output
                             (str_path (truediv (lit "out") (stem q ++ lit ".txt"))))
    /\ dict_get (str_path (lit "docs/report.pdf")) report =
         Some (success_output
                 (str_path (truediv (lit "out") (stem (lit "docs/report.pdf") ++ lit ".txt"))))
    /\ dict_get (str_path (lit "docs/old/report.pdf")) report =
         Some (success_output
                 (str_path (truediv (lit "out") (stem (lit "docs/report.pdf") ++ lit ".txt"))))
    /\ dict_get (str_path (truediv (lit "out") (stem (lit "docs/report.pdf") ++ lit ".txt")))
         (files st') = Some (lit "Draft").
Proof.
  apply (batch_outputs_named_by_stem the_world auto (lit "out")
           [] (lit "docs/report.pdf") [lit "docs/broken.pdf"]
           (lit "docs/old/report.pdf") [lit "docs/scan.pdf"]
           (lit "Title" ++ newline ++ lit "End") (lit "Draft") init_state).
  - distinct_strings.
  - reflexivity.
  - reflexivity.
  - reflexivity.
  - reflexivity.
  - reflexivity.
  - repeat constructor. vm_compute. discriminate.
Defined.

Example batch_docs_recursive_files :
  files (after (batch_convert the_world auto
                  [lit "docs/report.pdf"; lit "docs/broken.pdf";
                   lit "docs/old/report.pdf"; lit "docs/scan.pdf"]
                  (Some (lit "out"))) init_state)
    = [(lit "out/report.txt", lit "Draft")].
Proof. reflexivity. Qed.

(* ===================================================================== *)
(** * Further properties *)
(* ===================================================================== *)

(** The preview is never longer than 203 code points, agrees with the text
    on its first 200, and is the text itself when that has at most 200. *)
Lemma preview_bounded (text : str) :
  List.length (preview text) <= 203
  /\ firstn 200 (preview text) = firstn 200 text
  /\ (List.length text <= 200 -> preview text = text).
Proof.
  unfold preview.
  destruct (200 <? List.length text) eqn:E.
  - apply Nat.ltb_lt in E. repeat split.
    + rewrite length_app, length_firstn.
      replace (List.length (lit "...")) with 3 by reflexivity. lia.
    + rewrite firstn_app, length_firstn.
      replace (200 - Nat.min 200 (List.length text)) with 0 by lia.
      rewrite firstn_firstn. simpl. now rewrite app_nil_r.
    + lia.
  - repeat split. apply Nat.ltb_ge in E. lia.
Qed.

(** X2 on the corrupt file: pdfplumber once, PyPDF2 once. *)
Lemma call_counts_on_broken :
  count_calls fn_extract_with_pdfplumber
    (after (convert the_world auto (lit "docs/broken.pdf")) init_state)
    = count_calls fn_extract_with_pdfplumber (@init_state str) + 1
  /\ count_calls fn_extract_with_pypdf2
       (after (convert the_world auto (lit "docs/broken.pdf")) init_state)
     <= count_calls fn_extract_with_pypdf2 (@init_state str) + 2.
Proof.
  apply (convert_auto_call_counts the_world (lit "docs/broken.pdf") init_state).
  reflexivity.
Defined.

(** X3 on a document whose two pages have no text for pdfplumber. *)
Lemma no_text_pages_example :
  result (convert
            (example_world
               [{| pdf_path := lit "empty.pdf";
                   pdf_pypdf2 := inr [inr []; inr []];
                   pdf_pdfplumber := inr [inr None; inr (Some [])] |}] [] [])
            auto (lit "empty.pdf")) init_state
    = expected_pypdf2
        (example_world
           [{| pdf_path := lit "empty.pdf";
               pdf_pypdf2 := inr [inr []; inr []];
               pdf_pdfplumber := inr [inr None; inr (Some [])] |}] [] [])
        (lit "empty.pdf").
Proof.
  apply (convert_auto_no_text_pages _ (lit "empty.pdf") init_state [None; Some []]);
    reflexivity.
Defined.

Example no_text_pages_text :
  result (convert
            (example_world
               [{| pdf_path := lit "empty.pdf";
                   pdf_pypdf2 := inr [inr []; inr []];
                   pdf_pdfplumber := inr [inr None; inr (Some [])] |}] [] [])
            auto (lit "empty.pdf")) init_state
    = inr newline.
Proof. reflexivity. Qed.

(* ===================================================================== *)
(** * How [convert] uses the backends and the state *)
(* ===================================================================== *)

Section ConvertState.
Context {Path : Type} {pathlib : Pathlib Path}.
Variable w : World Path.

Lemma logged_add_calls (f : fn) (p : Path) (st : state Path) :
  logged f p st = add_calls [(f, p)] st.
Proof. reflexivity. Qed.

Lemma add_calls_add_calls (l1 l2 : list (fn * Path)) (st : state Path) :
  add_calls l2 (add_calls l1 st) = add_calls (l1 ++ l2) st.
Proof. unfold add_calls; simpl. now rewrite app_assoc. Qed.

(** The state after [convert] is the state before with the calls of this
    run added to the log. *)
Lemma convert_after (self : PDFConverter) (p : Path) (st : state Path) :
  after (convert w self p) st = add_calls (convert_trace w self p) st.
Proof.
  unfold convert_trace, after.
  destruct (precondition w p) eqn:Hpre.
  - rewrite !convert_valid_run by assumption; cbv zeta.
    destruct (str_eqb (method self) (lit "pypdf2")); simpl;
      [rewrite !logged_add_calls, !add_calls_add_calls; reflexivity|].
    destruct (str_eqb (method self) (lit "pdfplumber")); simpl;
      [rewrite !logged_add_calls, !add_calls_add_calls; reflexivity|].
    destruct (expected_pdfplumber w p) as [e|text]; simpl;
      [rewrite !logged_add_calls, !add_calls_add_calls; reflexivity|].
    destruct (blank text); simpl;
      [|rewrite !logged_add_calls, !add_calls_add_calls; reflexivity].
    destruct (expected_pypdf2 w p); simpl;
      rewrite !logged_add_calls, !add_calls_add_calls; reflexivity.
  - rewrite !convert_invalid_run by assumption; simpl.
    now rewrite logged_add_calls.
Qed.

(** Every logged call of a run of [convert] is on its path, and a backend
    is entered only when the preconditions hold. *)
Lemma convert_trace_In (self : PDFConverter) (p : Path) (f : fn) (q : Path) :
  In (f, q) (convert_trace w self p) ->
  q = p /\ (f = fn_convert \/ precondition w p = true).
Proof.
  unfold convert_trace, after.
  destruct (precondition w p) eqn:Hpre.
  - intros H. split; [|right; reflexivity]. revert H.
    rewrite convert_valid_run by assumption; cbv zeta.
    destruct (str_eqb (method self) (lit "pypdf2")); simpl;
      [intuition congruence|].
    destruct (str_eqb (method self) (lit "pdfplumber")); simpl;
      [intuition congruence|].
    destruct (expected_pdfplumber w p) as [e|text]; simpl;
      [intuition congruence|].
    destruct (blank text); simpl; [|intuition congruence].
    destruct (expected_pypdf2 w p); simpl; intuition congruence.
  - rewrite convert_invalid_run by assumption; simpl.
    intros [H|[]]. injection H as <- <-. auto.
Qed.

(** X5.  In the two direct modes, on a path that satisfies the
    preconditions, [convert] enters the chosen backend exactly once and the
    other one never, whether the extraction succeeds or raises: there is
    no fallback. *)
Theorem convert_direct_mode_enters_one_backend (p : Path) (st : state Path) :
  precondition w p = true ->
  calls (after (convert w pypdf2 p) st) =
    calls st ++ [(fn_convert, p); (fn_extract_with_pypdf2, p)]
  /\ calls (after (convert w pdfplumber p) st) =
       calls st ++ [(fn_convert, p); (fn_extract_with_pdfplumber, p)].
Proof.
  intros Hpre. unfold after.
  rewrite !convert_valid_run by assumption; simpl.
  rewrite <- !app_assoc. split; reflexivity.
Qed.

(** X6.  In auto mode, on a path that satisfies the preconditions, a text
    of pdfplumber that is not blank is returned as it is, and PyPDF2 is
    never entered. *)
Theorem convert_auto_keeps_pdfplumber_text
    (p : Path) (st : state Path) (text : str) :
  precondition w p = true ->
  result (extract_with_pdfplumber w auto p) st = inr text ->
  blank text = false ->
  result (convert w auto p) st = inr text
  /\ calls (after (convert w auto p) st) =
       calls st ++ [(fn_convert, p); (fn_extract_with_pdfplumber, p)].
Proof.
  intros Hpre HB Hblank. unfold result, after in *.
  rewrite extract_with_pdfplumber_run in HB; simpl in HB.
  rewrite !convert_valid_run by assumption; simpl.
  rewrite HB, Hblank; simpl.
  rewrite <- !app_assoc. split; reflexivity.
Qed.

(** X7.  In auto mode, on a path that satisfies the preconditions,
    [convert] raises only when PyPDF2 raises and pdfplumber gave no usable
    text (it raised, or its text was blank); the failure raised is the one
    of PyPDF2. *)
Theorem convert_auto_failure_is_pypdf2 (p : Path) (st : state Path) (e : exn) :
  precondition w p = true ->
  result (convert w auto p) st = inl e ->
  result (extract_with_pypdf2 w auto p) st = inl e
  /\ (exists detail, e = BackendFailure (lit "PyPDF2") detail)
  /\ ((exists e', result (extract_with_pdfplumber w auto p) st = inl e')
      \/ (exists text, result (extract_with_pdfplumber w auto p) st = inr text
                       /\ blank text = true)).
Proof.
  intros Hpre. unfold result.
  rewrite convert_valid_run, extract_with_pypdf2_run, extract_with_pdfplumber_run
    by assumption; simpl.
  destruct (expected_pdfplumber w p) as [e'|text]; simpl.
  - intros HA. split; [exact HA|]. split.
    + exact (expected_pypdf2_raises w p e HA).
    + left. now exists e'.
  - destruct (blank text) eqn:Hblank; [|discriminate].
    destruct (expected_pypdf2 w p) as [e0|t] eqn:HA; simpl; [|discriminate].
    intros [= <-]. split; [reflexivity|]. split.
    + exact (expected_pypdf2_raises w p e0 HA).
    + right. now exists text.
Qed.

(** X8.  [convert] writes no file and prints nothing, whatever the method,
    the path and the outcome: it only adds calls to the log, all of them on
    its own path. *)
Theorem convert_only_extends_the_log
    (self : PDFConverter) (p : Path) (st : state Path) :
  files (after (convert w self p) st) = files st
  /\ stdout (after (convert w self p) st) = stdout st
  /\ stderr (after (convert w self p) st) = stderr st
  /\ exists added,
       calls (after (convert w self p) st) = calls st ++ added
       /\ Forall (fun c => snd c = p) added.
Proof.
  rewrite convert_after. repeat split.
  exists (convert_trace w self p). split; [reflexivity|].
  apply Forall_forall. intros [f q] Hin.
  apply convert_trace_In in Hin as [-> _]. reflexivity.
Qed.
End ConvertState.

(* ===================================================================== *)
(** * What a batch leaves behind *)
(* ===================================================================== *)

Lemma keys_dict_set_In {V} (k k' : str) (v : V) (d : dict V) :
  In k' (keys (dict_set k v d)) <-> k' = k \/ In k' (keys d).
Proof.
  destruct (in_dec (list_eq_dec N.eq_dec) k (keys d)) as [Hin|Hnin].
  - rewrite keys_dict_set_old by exact Hin. split; [auto|].
    intros [->|H]; assumption.
  - rewrite keys_dict_set_new by exact Hnin. rewrite in_app_iff; simpl.
    intuition.
Qed.

Lemma keys_dict_set_NoDup {V} (k : str) (v : V) (d : dict V) :
  NoDup (keys d) -> NoDup (keys (dict_set k v d)).
Proof.
  intros Hnd.
  destruct (in_dec (list_eq_dec N.eq_dec) k (keys d)) as [Hin|Hnin].
  - now rewrite keys_dict_set_old.
  - rewrite keys_dict_set_new by exact Hnin.
    apply NoDup_app; [exact Hnd | repeat constructor; intros [] |].
    intros x Hx [<-|[]]. contradiction.
Qed.

Lemma dict_get_keys {V} (k : str) (d : dict V) :
  In k (keys d) <-> exists v, dict_get k d = Some v.
Proof.
  unfold keys; induction d as [|[k' v'] d IH]; simpl.
  - split; [intros [] | intros [v H]; discriminate].
  - destruct (str_eqb k k') eqn:E.
    + apply str_eqb_eq in E; subst. split; [eauto | auto].
    + apply str_eqb_neq in E. rewrite <- IH. intuition congruence.
Qed.

Section BatchState.
Context {Path : Type} {pathlib : Pathlib Path}.
Variable w : World Path.
Variable self : PDFConverter.
Variable output_dir : option Path.

(** One iteration, with the state it leaves. *)
Lemma batch_step_state (results : dict entry) (p : Path) (st : state Path) :
  batch_step w self output_dir results p st =
    (inr (dict_set (str_path p) (batch_entry w self output_dir p) results),
     match batch_write w self output_dir p with
     | Some (k, text) => set_file k text (add_calls (convert_trace w self p) st)
     | None => add_calls (convert_trace w self p) st
     end).
Proof.
  pose proof (convert_after w self p st) as Hafter.
  pose proof (convert_raises_Exception w self p st) as Hexc.
  pose proof (convert_result_state w self p st init_state) as Hres.
  unfold batch_step, batch_entry, batch_write, try_except_Exception, bind.
  rewrite <- Hres. unfold result, after in *.
  destruct (convert w self p st) as [[e|text] st1]; simpl in *; subst st1.
  - now rewrite (Hexc e eq_refl).
  - destruct output_dir as [dir|]; simpl; [|reflexivity].
    unfold write_text, spoil, bind, output_file.
    destruct (write_text_raises w (truediv dir (stem p ++ lit ".txt")) text);
      [|reflexivity].
    destruct (write_text_leaves w (truediv dir (stem p ++ lit ".txt")) text);
      reflexivity.
Qed.

(** The whole loop: what it adds to the log, that it prints nothing on
    the standard output, and that the error stream gets the writes of the
    progress bar and nothing else. *)
Lemma batch_loop_state (total n : nat) (paths : list Path) (results : dict entry)
    (st : state Path) :
  exists st',
    batch_loop w self output_dir total n paths results st =
      (inr (batch_report w self output_dir paths results), st')
    /\ calls st' = calls st ++ flat_map (convert_trace w self) paths
    /\ files st' = batch_files w self output_dir paths (files st)
    /\ stdout st' = stdout st
    /\ stderr st' = stderr st ++ progress_rest w total n (List.length paths).
Proof.
  revert n results st; induction paths as [|p rest IH]; intros n results st; simpl.
  - eexists; split; [reflexivity|]. simpl. rewrite app_nil_r. repeat split.
  - unfold bind at 1. rewrite batch_step_state.
    unfold bind at 1. unfold write_stderr at 1.
    match goal with
    | |- context [batch_loop _ _ _ _ _ rest ?r ?s] =>
        destruct (IH (S n) r s) as (st' & Hrun & Hcalls & Hfiles & Hout & Herr)
    end.
    exists st'. split; [exact Hrun|].
    unfold batch_files in *; simpl.
    destruct (batch_write w self output_dir p) as [[k text]|]; simpl in *;
      rewrite Hcalls, Hfiles, Hout, Herr, <- !app_assoc; repeat split.
Qed.

(** [batch_convert] as a whole, with the state it leaves. *)
Lemma batch_convert_state (paths : list Path) (st : state Path) :
  exists st',
    batch_convert w self paths output_dir st =
      (inr (batch_report w self output_dir paths []), st')
    /\ calls st' = calls st ++ flat_map (convert_trace w self) paths
    /\ files st' = batch_files w self output_dir paths (files st)
    /\ stdout st' = stdout st
    /\ stderr st' = stderr st ++ progress w (List.length paths).
Proof.
  unfold batch_convert, bind, write_stderr, progress.
  match goal with
  | |- context [batch_loop _ _ _ ?t ?n paths ?r ?s] =>
      destruct (batch_loop_state t n paths r s)
        as (st' & Hrun & Hcalls & Hfiles & Hout & Herr)
  end.
  exists st'. split; [exact Hrun|]. simpl in *.
  rewrite Hcalls, Hfiles, Hout, Herr, <- app_assoc. repeat split.
Qed.

(** What [batch_files] changes: only the files some input writes. *)
Lemma batch_files_other (paths : list Path) (fs : dict str) (k : str) :
  (forall p text, In p paths -> batch_write w self output_dir p <> Some (k, text)) ->
  dict_get k (batch_files w self output_dir paths fs) = dict_get k fs.
Proof.
  unfold batch_files. revert fs; induction paths as [|p rest IH]; intros fs H; simpl.
  - reflexivity.
  - rewrite IH by (intros q t Hq; apply H; right; exact Hq).
    destruct (batch_write w self output_dir p) as [[k' text]|] eqn:E; [|reflexivity].
    apply dict_get_set_other. intros ->.
    apply (H p text); [left; reflexivity | exact E].
Qed.

Lemma batch_files_origin (paths : list Path) (fs : dict str) (k text : str) :
  dict_get k (batch_files w self output_dir paths fs) = Some text ->
  dict_get k fs = Some text
  \/ exists p, In p paths /\ batch_write w self output_dir p = Some (k, text).
Proof.
  unfold batch_files. revert fs; induction paths as [|p rest IH]; intros fs H; simpl in *.
  - left; exact H.
  - apply IH in H as [H|(q & Hq & Hw)]; [|right; exists q; auto].
    destruct (batch_write w self output_dir p) as [[k' t']|] eqn:E; [|left; exact H].
    destruct (str_eqb k k') eqn:Ek.
    + apply str_eqb_eq in Ek; subst k'. rewrite dict_get_set_same in H.
      injection H as <-. right. exists p. auto.
    + apply str_eqb_neq in Ek. rewrite dict_get_set_other in H by exact Ek.
      left; exact H.
Qed.

(** A file an input sets is its output; it holds the converted text when
    the write succeeded and what the write left when it raised. *)
Lemma batch_write_Some (p : Path) (k content : str) :
  batch_write w self output_dir p = Some (k, content) ->
  exists dir text,
    output_dir = Some dir
    /\ k = str_path (truediv dir (stem p ++ lit ".txt"))
    /\ result (convert w self p) init_state = inr text
    /\ ((write_text_raises w (truediv dir (stem p ++ lit ".txt")) text = None
         /\ content = text)
        \/ (exists msg,
              write_text_raises w (truediv dir (stem p ++ lit ".txt")) text = Some msg
              /\ write_text_leaves w (truediv dir (stem p ++ lit ".txt")) text
                   = Some content)).
Proof.
  unfold batch_write, output_file.
  destruct (result (convert w self p) init_state) as [e|t]; [discriminate|].
  destruct output_dir as [dir|]; [|discriminate].
  destruct (write_text_raises w _ t) as [msg|] eqn:Hw.
  - destruct (write_text_leaves w _ t) as [c|] eqn:Hl; [|discriminate].
    intros [= <- <-]. exists dir, t. repeat split. right. exists msg. auto.
  - intros [= <- <-]. exists dir, t. repeat split. left. auto.
Qed.

Lemma batch_report_keys_In (paths : list Path) (results : dict entry) (k : str) :
  In k (keys (batch_report w self output_dir paths results)) <->
  In k (keys results) \/ In k (map str_path paths).
Proof.
  unfold batch_report.
  revert results; induction paths as [|p rest IH]; intros results; simpl.
  - tauto.
  - rewrite IH, keys_dict_set_In. intuition.
Qed.

Lemma batch_report_keys_NoDup (paths : list Path) (results : dict entry) :
  NoDup (keys results) ->
  NoDup (keys (batch_report w self output_dir paths results)).
Proof.
  unfold batch_report.
  revert results; induction paths as [|p rest IH]; intros results H; simpl.
  - exact H.
  - apply IH. now apply keys_dict_set_NoDup.
Qed.
End BatchState.

Section BatchEffects.
Context {Path : Type} {pathlib : Pathlib Path}.
Variable w : World Path.

(** X9.  [batch_convert] prints nothing on the standard output, and the
    error stream gets the writes of the progress bar and nothing else.  It
    removes no file, and without an output directory it sets none.  With
    one, a file it sets is the output [<output_dir>/<stem>.txt] of one of
    the inputs that convert; it holds the text that input converts to when
    the write succeeded, and what the write left of it when the write
    raised. *)
Theorem batch_convert_writes_only_outputs
    (self : PDFConverter) (output_dir : option Path) (paths : list Path)
    (st : state Path) :
  exists report st',
    batch_convert w self paths output_dir st = (inr report, st')
    /\ stdout st' = stdout st
    /\ stderr st' = stderr st ++ progress w (List.length paths)
    /\ (output_dir = None -> files st' = files st)
    /\ (forall k content,
          dict_get k (files st') = Some content ->
          dict_get k (files st) = Some content
          \/ exists dir p text,
               output_dir = Some dir /\ In p paths
               /\ k = str_path (truediv dir (stem p ++ lit ".txt"))
               /\ result (convert w self p) st = inr text
               /\ ((write_text_raises w (truediv dir (stem p ++ lit ".txt")) text
                      = None
                    /\ content = text)
                   \/ (exists msg,
                         write_text_raises w (truediv dir (stem p ++ lit ".txt")) text
                           = Some msg
                         /\ write_text_leaves w (truediv dir (stem p ++ lit ".txt"))
                              text = Some content)))
    /\ (forall k,
          In k (keys (files st)) -> In k (keys (files st'))).
Proof.
  destruct (batch_convert_state w self output_dir paths st)
    as (st' & Hrun & _ & Hfiles & Hout & Herr).
  exists (batch_report w self output_dir paths []), st'.
  split; [exact Hrun|]. split; [exact Hout|]. split; [exact Herr|].
  rewrite Hfiles. clear Hrun Hfiles Herr. split; [|split].
  - intros ->.
    assert (Hn : forall p, batch_write w self None p = None).
    { intros p. unfold batch_write.
      now destruct (result (convert w self p) init_state). }
    unfold batch_files. generalize (files st) as fs.
    induction paths as [|p rest IH]; intros fs; simpl; [reflexivity|].
    rewrite Hn. apply IH.
  - intros k content H.
    apply batch_files_origin in H as [H|(p & Hp & Hw)]; [left; exact H|].
    apply batch_write_Some in Hw as (dir & text & Hdir & Hk & Hres & Hcase).
    right. exists dir, p, text. repeat split; try assumption.
    now rewrite (convert_result_state w self p st init_state).
  - intros k. unfold batch_files. generalize (files st) as fs.
    induction paths as [|p rest IH]; intros fs Hin; simpl; [exact Hin|].
    apply IH.
    destruct (batch_write w self output_dir p) as [[k' t']|]; [|exact Hin].
    apply keys_dict_set_In. right; exact Hin.
Qed.

(** X10.  The report of [batch_convert] has exactly one entry per distinct
    path string of the list, repeated or not: its keys are the path strings
    of the inputs, none twice, so it never has more entries than inputs. *)
Theorem batch_report_one_entry_per_path_string
    (self : PDFConverter) (output_dir : option Path) (paths : list Path)
    (st : state Path) :
  exists report st',
    batch_convert w self paths output_dir st = (inr report, st')
    /\ NoDup (keys report)
    /\ (forall k, In k (keys report) <-> In k (map str_path paths))
    /\ List.length report <= List.length paths.
Proof.
  destruct (batch_convert_state w self output_dir paths st) as (st' & Hrun & _).
  exists (batch_report w self output_dir paths []), st'.
  assert (Hnd : NoDup (keys (batch_report w self output_dir paths [])))
    by (apply batch_report_keys_NoDup; constructor).
  assert (Hin : forall k, In k (keys (batch_report w self output_dir paths []))
                          <-> In k (map str_path paths)).
  { intros k. rewrite batch_report_keys_In. simpl. tauto. }
  split; [exact Hrun|]. split; [exact Hnd|]. split; [exact Hin|].
  rewrite <- (length_map fst (batch_report w self output_dir paths [])).
  rewrite <- (length_map str_path paths).
  apply NoDup_incl_length; [exact Hnd|].
  intros k Hk. apply Hin. exact Hk.
Qed.

(** X11.  During a batch a backend is entered only on inputs that satisfy
    the preconditions of [convert]: every call the batch adds to the log is
    on a path of the list, and a call of a backend is on a path that exists
    and has the [.pdf] suffix. *)
Theorem batch_convert_backends_only_on_valid_inputs
    (self : PDFConverter) (output_dir : option Path) (paths : list Path)
    (st : state Path) :
  exists report st' added,
    batch_convert w self paths output_dir st = (inr report, st')
    /\ calls st' = calls st ++ added
    /\ (forall f q, In (f, q) added ->
          In q paths /\ (f = fn_convert \/ precondition w q = true)).
Proof.
  destruct (batch_convert_state w self output_dir paths st)
    as (st' & Hrun & Hcalls & _).
  exists (batch_report w self output_dir paths []), st',
         (flat_map (convert_trace w self) paths).
  split; [exact Hrun|]. split; [exact Hcalls|].
  intros f q Hin. apply in_flat_map in Hin as (p & Hp & Hin).
  apply convert_trace_In in Hin as [-> Hvalid]. auto.
Qed.
End BatchEffects.

(* ===================================================================== *)
(** * What [main] prints and writes *)
(* ===================================================================== *)

Section MainState.
Context {Path : Type} {pathlib : Pathlib Path}.
Variable w : World Path.

Lemma add_stdout_add_stdout (l1 l2 : list str) (st : state Path) :
  add_stdout l2 (add_stdout l1 st) = add_stdout (l1 ++ l2) st.
Proof. unfold add_stdout; simpl. now rewrite app_assoc. Qed.

Lemma add_stdout_nil (st : state Path) : add_stdout [] st = st.
Proof. destruct st; unfold add_stdout; simpl. now rewrite app_nil_r. Qed.

Lemma echo_run (line : str) (st : state Path) :
  echo line st = (inr tt, add_stdout [line] st).
Proof. reflexivity. Qed.

(** The verbose listing prints one line per entry in error, in the order of
    the report, and never raises on a report of [batch_convert]. *)
Lemma echo_errors_state (items : dict entry) (st : state Path) :
  Forall reportable (values items) ->
  echo_errors items st = (inr tt, add_stdout (error_lines items) st).
Proof.
  revert st; induction items as [|[path r] rest IH]; intros st H; simpl.
  - now rewrite add_stdout_nil.
  - inversion H as [|? ? Hr Hrest]; subst.
    unfold bind, getitem, has_status.
    destruct Hr as [Hs|[Hs [msg Hm]]]; rewrite Hs; unfold ret; cbv beta iota.
    + replace (str_eqb (lit "success") (lit "error")) with false by reflexivity.
      cbv iota. rewrite IH by exact Hrest. reflexivity.
    + replace (str_eqb (lit "error") (lit "error")) with true by reflexivity.
      cbv iota. rewrite Hm. cbv beta iota. rewrite echo_run.
      rewrite IH by exact Hrest. now rewrite add_stdout_add_stdout.
Qed.

(** The counting and the summary of [main] on a report of [batch_convert]. *)
Lemma summary_run (verbose : bool) (n : nat) (results : dict entry)
    (st : state Path) :
  Forall reportable (values results) ->
  (success_count <- sum_status (lit "success") (values results) 0 ;;
   error_count <- sum_status (lit "error") (values results) 0 ;;
   echo (newline ++ check_mark ++ lit " Successfully converted: "
           ++ str_of_nat success_count ++ lit "/" ++ str_of_nat n) ;;
   if 0 <? error_count then
     echo (cross_mark ++ lit " Failed: " ++ str_of_nat error_count) ;;
     if verbose then
       echo (newline ++ lit "Errors:") ;; echo_errors results
     else ret tt
   else ret tt) st = (inr tt, add_stdout (summary_lines verbose n results) st).
Proof.
  intros Hrep.
  assert (Hmarked : Forall marked (values results))
    by (eapply Forall_impl; [apply reportable_marked | exact Hrep]).
  unfold summary_lines.
  unfold bind at 1. rewrite sum_status_run by exact Hmarked.
  unfold bind at 1. rewrite sum_status_run by exact Hmarked.
  unfold bind at 1. rewrite echo_run. cbv beta iota. simpl (0 + _).
  destruct (0 <? count_status (lit "error") (values results)).
  - unfold bind at 1. rewrite echo_run. cbv beta iota.
    rewrite add_stdout_add_stdout.
    destruct verbose.
    + unfold bind at 1. rewrite echo_run. cbv beta iota.
      rewrite echo_errors_state by exact Hrep.
      rewrite !add_stdout_add_stdout. rewrite <- !app_assoc. reflexivity.
    + unfold ret. now rewrite app_nil_r.
  - unfold ret. now rewrite app_nil_r.
Qed.

(** A single file: the result of [main] and the state it leaves. *)
Lemma main_single_file_state (a : Args) (st : state Path) :
  is_file w (Path_ (arg_input_path a)) = true ->
  main w a st =
    let conv := PDFConverter_init (arg_method a) in
    let input := Path_ (arg_input_path a) in
    let st1 := add_calls (convert_trace w conv input) (announced a st) in
    match result (convert w conv input) st with
    | inl e =>
        (inl (SystemExit 1),
         add_stderr [cross_mark ++ lit " Error: " ++ str_exn e] st1)
    | inr text =>
        match if_given (arg_output a) with
        | Some output =>
            match write_text_raises w (Path_ output) text with
            | Some msg =>
                (inl (SystemExit 1),
                 add_stderr [cross_mark ++ lit " Error: " ++ msg]
                   match write_text_leaves w (Path_ output) text with
                   | Some content =>
                       set_file (str_path (Path_ output)) content st1
                   | None => st1
                   end)
            | None =>
                (inr tt,
                 add_stdout [check_mark ++ lit " Successfully converted to: "
                               ++ str_path (Path_ output)]
                   (set_file (str_path (Path_ output)) text st1))
            end
        | None =>
            (inr tt,
             add_stdout [newline ++ rule; lit "EXTRACTED TEXT:"; rule; text] st1)
        end
    end.
Proof.
  intros Hfile. unfold main. rewrite Hfile. cbv zeta.
  set (conv := PDFConverter_init (arg_method a)).
  set (input := Path_ (arg_input_path a)).
  assert (Hstart :
    (if arg_verbose a
     then echo (lit "Converting single PDF: " ++ str_path input)
     else ret tt) st = (inr tt, announced a st)).
  { unfold announced. fold input. now destruct (arg_verbose a). }
  unfold bind at 1. rewrite Hstart.
  generalize (announced a st) as st0. intros st0.
  rewrite (convert_result_state w conv input st st0).
  pose proof (convert_raises_Exception w conv input st0) as Hexc.
  pose proof (convert_after w conv input st0) as Hafter.
  unfold result, after in *. unfold try_except_Exception, bind.
  destruct (convert w conv input st0) as [[e|text] st1]; cbn [fst snd] in *;
    subst st1.
  - rewrite (Hexc e eq_refl). reflexivity.
  - destruct (if_given (arg_output a)) as [output|].
    + unfold write_text, spoil, bind.
      destruct (write_text_raises w (Path_ output) text); [|reflexivity].
      destruct (write_text_leaves w (Path_ output) text); reflexivity.
    + rewrite !echo_run. cbv beta iota.
      rewrite !add_stdout_add_stdout. reflexivity.
Qed.

(** X15.  On a directory in which the glob finds PDFs (and whose output
    directory, if one is asked for, can be made), [main] returns normally.
    It prints the number of files found, then the summary
    "Successfully converted: s/n" with the number of entries marked
    ['success'], then "Failed: e" exactly when some entry is in error, and
    in verbose mode one line per entry in error, in the order of the report.
    The error stream gets the writes of the progress bar and nothing else.
    [main] calls [convert] on the files in the order of the glob, and the
    files are those the inputs set: the output with the converted text, or
    what a write that raised left of it. *)
Theorem main_directory_state (a : Args) (st : state Path)
    (f : Path) (fs : list Path) :
  is_file w (Path_ (arg_input_path a)) = false ->
  is_dir w (Path_ (arg_input_path a)) = true ->
  glob w (Path_ (arg_input_path a))
       (if arg_recursive a then lit "**/*.pdf" else lit "*.pdf") = f :: fs ->
  (forall output, if_given (arg_output a) = Some output ->
                  mkdir_raises w (Path_ output) = None) ->
  exists st',
    main w a st = (inr tt, st')
    /\ stdout st' =
         stdout st
         ++ (lit "Found " ++ str_of_nat (List.length (f :: fs)) ++ lit " PDF files")
         :: summary_lines (arg_verbose a) (List.length (f :: fs))
              (batch_report w (PDFConverter_init (arg_method a))
                 (option_map Path_ (if_given (arg_output a))) (f :: fs) [])
    /\ stderr st' = stderr st ++ progress w (List.length (f :: fs))
    /\ files st' =
         batch_files w (PDFConverter_init (arg_method a))
           (option_map Path_ (if_given (arg_output a))) (f :: fs) (files st)
    /\ calls st' =
         calls st
         ++ flat_map (convert_trace w (PDFConverter_init (arg_method a))) (f :: fs).
Proof.
  intros Hfile Hdir Hglob Hmk. unfold main. rewrite Hfile, Hdir, Hglob.
  set (conv := PDFConverter_init (arg_method a)).
  set (pdf_files := f :: fs).
  assert (Hrest : forall (output_dir : option Path) (st0 : state Path),
    exists st',
      (results <- batch_convert w conv pdf_files output_dir ;;
       success_count <- sum_status (lit "success") (values results) 0 ;;
       error_count <- sum_status (lit "error") (values results) 0 ;;
       echo (newline ++ check_mark ++ lit " Successfully converted: "
               ++ str_of_nat success_count ++ lit "/"
               ++ str_of_nat (List.length pdf_files)) ;;
       if 0 <? error_count then
         echo (cross_mark ++ lit " Failed: " ++ str_of_nat error_count) ;;
         if arg_verbose a then
           echo (newline ++ lit "Errors:") ;; echo_errors results
         else ret tt
       else ret tt) st0 = (inr tt, st')
      /\ stdout st' =
           stdout st0 ++ summary_lines (arg_verbose a) (List.length pdf_files)
                           (batch_report w conv output_dir pdf_files [])
      /\ stderr st' = stderr st0 ++ progress w (List.length pdf_files)
      /\ files st' = batch_files w conv output_dir pdf_files (files st0)
      /\ calls st' = calls st0 ++ flat_map (convert_trace w conv) pdf_files).
  { intros output_dir st0.
    destruct (batch_convert_state w conv output_dir pdf_files st0)
      as (st1 & Hrun & Hcalls & Hfiles & Hout & Herr).
    assert (Hrep : Forall reportable
                     (values (batch_report w conv output_dir pdf_files [])))
      by (apply batch_report_reportable; constructor).
    unfold bind at 1. rewrite Hrun.
    rewrite (summary_run (arg_verbose a) (List.length pdf_files) _ st1 Hrep).
    eexists; split; [reflexivity|]. simpl.
    rewrite Hout, Herr, Hfiles, Hcalls. repeat split. }
  unfold bind at 1. rewrite echo_run.
  unfold bind at 1.
  destruct (if_given (arg_output a)) as [output|]; simpl option_map.
  - unfold bind at 1. unfold mkdir. rewrite (Hmk output eq_refl).
    unfold ret at 1. unfold ret at 1.
    destruct (Hrest (Some (Path_ output))
                (add_stdout [lit "Found " ++ str_of_nat (List.length pdf_files)
                               ++ lit " PDF files"] st))
      as (st' & Hrun & Hout & Herr & Hfiles & Hcalls).
    exists st'. split; [exact Hrun|].
    rewrite Hout, Herr, Hfiles, Hcalls; simpl.
    rewrite <- app_assoc. repeat split.
  - unfold ret at 1.
    destruct (Hrest None
                (add_stdout [lit "Found " ++ str_of_nat (List.length pdf_files)
                               ++ lit " PDF files"] st))
      as (st' & Hrun & Hout & Herr & Hfiles & Hcalls).
    exists st'. split; [exact Hrun|].
    rewrite Hout, Herr, Hfiles, Hcalls; simpl.
    rewrite <- app_assoc. repeat split.
Qed.
End MainState.

Section MainEffects.
Context {Path : Type} {pathlib : Pathlib Path}.
Variable w : World Path.

(** X12.  A single file, no output asked for, and the conversion succeeds:
    [main] returns normally after printing a rule, the heading
    "EXTRACTED TEXT:", a rule and the text (after the announcement, in
    verbose mode); it writes no file and prints nothing on the error
    stream. *)
Theorem main_prints_text_of_single_file
    (a : Args) (st : state Path) (text : str) :
  is_file w (Path_ (arg_input_path a)) = true ->
  if_given (arg_output a) = None ->
  result (convert w (PDFConverter_init (arg_method a))
            (Path_ (arg_input_path a))) st = inr text ->
  exists st',
    main w a st = (inr tt, st')
    /\ stdout st' =
         stdout st
         ++ (if arg_verbose a
             then [lit "Converting single PDF: "
                     ++ str_path (Path_ (arg_input_path a))]
             else [])
         ++ [newline ++ rule; lit "EXTRACTED TEXT:"; rule; text]
    /\ stderr st' = stderr st
    /\ files st' = files st.
Proof.
  intros Hfile Hout Hres.
  rewrite (main_single_file_state w a st Hfile). cbv zeta.
  rewrite Hres, Hout. eexists; split; [reflexivity|].
  unfold announced. destruct (arg_verbose a); simpl.
  - rewrite <- app_assoc. repeat split.
  - repeat split.
Qed.

(** X13.  A single file with an output path, the conversion succeeds and
    the file can be written: [main] returns normally, the output file holds
    exactly the converted text, and what is printed is the confirmation
    with the output path, not the text. *)
Theorem main_writes_output_of_single_file
    (a : Args) (st : state Path) (output text : str) :
  is_file w (Path_ (arg_input_path a)) = true ->
  if_given (arg_output a) = Some output ->
  result (convert w (PDFConverter_init (arg_method a))
            (Path_ (arg_input_path a))) st = inr text ->
  write_text_raises w (Path_ output) text = None ->
  exists st',
    main w a st = (inr tt, st')
    /\ files st' = dict_set (str_path (Path_ output)) text (files st)
    /\ dict_get (str_path (Path_ output)) (files st') = Some text
    /\ stdout st' =
         stdout st
         ++ (if arg_verbose a
             then [lit "Converting single PDF: "
                     ++ str_path (Path_ (arg_input_path a))]
             else [])
         ++ [check_mark ++ lit " Successfully converted to: "
               ++ str_path (Path_ output)]
    /\ stderr st' = stderr st.
Proof.
  intros Hfile Hout Hres Hwrite.
  rewrite (main_single_file_state w a st Hfile). cbv zeta.
  rewrite Hres, Hout, Hwrite. eexists; split; [reflexivity|].
  unfold announced. destruct (arg_verbose a); simpl.
  - rewrite dict_get_set_same, <- app_assoc. repeat split.
  - rewrite dict_get_set_same. repeat split.
Qed.

(** X14.  A single file whose conversion raises, or whose output cannot be
    written: [main] ends with [sys.exit(1)] after printing the line
    "Error: <message>" on the error stream, with the message of the
    exception, and prints nothing else but the announcement of verbose
    mode.  When the conversion raises no file is set.  When the write
    raises, the output file is left as the write left it (untouched, empty
    or truncated) and no other file is set. *)
Theorem main_reports_failure_of_single_file
    (a : Args) (st : state Path) (msg : str) (leftover : option (str * str)) :
  is_file w (Path_ (arg_input_path a)) = true ->
  (exists e,
     result (convert w (PDFConverter_init (arg_method a))
               (Path_ (arg_input_path a))) st = inl e
     /\ msg = str_exn e
     /\ leftover = None)
  \/ (exists text output,
        result (convert w (PDFConverter_init (arg_method a))
                  (Path_ (arg_input_path a))) st = inr text
        /\ if_given (arg_output a) = Some output
        /\ write_text_raises w (Path_ output) text = Some msg
        /\ leftover =
             match write_text_leaves w (Path_ output) text with
             | Some content => Some (str_path (Path_ output), content)
             | None => None
             end) ->
  exists st',
    main w a st = (inl (SystemExit 1), st')
    /\ stderr st' = stderr st ++ [cross_mark ++ lit " Error: " ++ msg]
    /\ files st' =
         match leftover with
         | Some (k, content) => dict_set k content (files st)
         | None => files st
         end
    /\ stdout st' =
         stdout st
         ++ (if arg_verbose a
             then [lit "Converting single PDF: "
                     ++ str_path (Path_ (arg_input_path a))]
             else []).
Proof.
  intros Hfile Hfail.
  rewrite (main_single_file_state w a st Hfile). cbv zeta.
  destruct Hfail
    as [(e & Hres & -> & ->)|(text & output & Hres & Hout & Hwrite & ->)].
  - rewrite Hres. eexists; split; [reflexivity|].
    unfold announced. destruct (arg_verbose a); simpl; repeat split.
    now rewrite app_nil_r.
  - rewrite Hres, Hout, Hwrite. eexists; split; [reflexivity|].
    unfold announced.
    destruct (write_text_leaves w (Path_ output) text);
      destruct (arg_verbose a); simpl; repeat split;
      now rewrite app_nil_r.
Qed.

(** X16.  On a directory in which the glob finds no PDF, [main] prints
    "No PDF files found in <path>" and ends with [sys.exit(0)]: [convert]
    is not called, no file is written, nothing goes to the error stream,
    and the output directory is not made. *)
Theorem main_finds_no_pdf (a : Args) (st : state Path) :
  is_file w (Path_ (arg_input_path a)) = false ->
  is_dir w (Path_ (arg_input_path a)) = true ->
  glob w (Path_ (arg_input_path a))
       (if arg_recursive a then lit "**/*.pdf" else lit "*.pdf") = [] ->
  main w a st =
    (inl (SystemExit 0),
     add_stdout [lit "No PDF files found in "
                   ++ str_path (Path_ (arg_input_path a))] st).
Proof.
  intros Hfile Hdir Hglob. unfold main. rewrite Hfile, Hdir, Hglob.
  reflexivity.
Qed.

(** X17.  On a directory with PDFs, when the output directory cannot be
    made, the exception of [mkdir] is caught by nobody: the process ends
    with status 1 right after printing the number of files found, and no
    file is converted or written. *)
Theorem main_stops_when_output_dir_cannot_be_made
    (a : Args) (st : state Path) (f : Path) (fs : list Path) (output msg : str) :
  click_accepts w a = true ->
  is_file w (Path_ (arg_input_path a)) = false ->
  is_dir w (Path_ (arg_input_path a)) = true ->
  glob w (Path_ (arg_input_path a))
       (if arg_recursive a then lit "**/*.pdf" else lit "*.pdf") = f :: fs ->
  if_given (arg_output a) = Some output ->
  mkdir_raises w (Path_ output) = Some msg ->
  main w a st =
    (inl (LibraryError msg),
     add_stdout [lit "Found " ++ str_of_nat (List.length (f :: fs))
                   ++ lit " PDF files"] st)
  /\ main_command w a st =
       (1%N,
        add_stdout [lit "Found " ++ str_of_nat (List.length (f :: fs))
                      ++ lit " PDF files"] st).
Proof.
  intros Hclick Hfile Hdir Hglob Hout Hmk.
  assert (Hmain : main w a st =
    (inl (LibraryError msg),
     add_stdout [lit "Found " ++ str_of_nat (List.length (f :: fs))
                   ++ lit " PDF files"] st)).
  { unfold main. rewrite Hfile, Hdir, Hglob, Hout.
    unfold bind at 1. rewrite echo_run.
    unfold bind at 1. unfold bind at 1. unfold mkdir. rewrite Hmk.
    reflexivity. }
  split; [exact Hmain|].
  unfold main_command. now rewrite Hclick, Hmain.
Qed.

(** X18.  An output option given as the empty string counts as no output
    option: [main] runs exactly as without it. *)
Theorem main_ignores_empty_output (a : Args) (st : state Path) :
  arg_output a = Some [] ->
  main w a st =
    main w {| arg_input_path := arg_input_path a;
              arg_output := None;
              arg_method := arg_method a;
              arg_recursive := arg_recursive a;
              arg_verbose := arg_verbose a |} st.
Proof.
  intros Hout. unfold main. simpl. rewrite Hout. reflexivity.
Qed.
End MainEffects.

(* ===================================================================== *)
(** * The further properties on concrete inputs *)
(* ===================================================================== *)

(** X5 on the report. *)
Lemma direct_modes_on_report :
  calls (after (convert the_world pypdf2 (lit "docs/report.pdf")) init_state) =
    calls init_state
      ++ [(fn_convert, lit "docs/report.pdf");
          (fn_extract_with_pypdf2, lit "docs/report.pdf")]
  /\ calls (after (convert the_world pdfplumber (lit "docs/report.pdf")) init_state) =
       calls init_state
         ++ [(fn_convert, lit "docs/report.pdf");
             (fn_extract_with_pdfplumber, lit "docs/report.pdf")].
Proof.
  apply (convert_direct_mode_enters_one_backend the_world
           (lit "docs/report.pdf") init_state).
  reflexivity.
Defined.

(** X6 on the report: the text of pdfplumber, without the blank page. *)
Lemma auto_keeps_pdfplumber_text_of_report :
  result (convert the_world auto (lit "docs/report.pdf")) init_state
    = inr (lit "Title" ++ newline ++ lit "End")
  /\ calls (after (convert the_world auto (lit "docs/report.pdf")) init_state) =
       calls init_state
         ++ [(fn_convert, lit "docs/report.pdf");
             (fn_extract_with_pdfplumber, lit "docs/report.pdf")].
Proof.
  apply (convert_auto_keeps_pdfplumber_text the_world
           (lit "docs/report.pdf") init_state (lit "Title" ++ newline ++ lit "End"));
    reflexivity.
Defined.

(** X7 on the scan: pdfplumber returns a blank text and PyPDF2 raises. *)
Lemma auto_failure_on_scan :
  result (extract_with_pypdf2 the_world auto (lit "docs/scan.pdf")) init_state
    = inl (BackendFailure (lit "PyPDF2") (lit "EOF marker not found"))
  /\ (exists detail,
        BackendFailure (lit "PyPDF2") (lit "EOF marker not found")
          = BackendFailure (lit "PyPDF2") detail)
  /\ ((exists e',
         result (extract_with_pdfplumber the_world auto (lit "docs/scan.pdf"))
           init_state = inl e')
      \/ (exists text,
            result (extract_with_pdfplumber the_world auto (lit "docs/scan.pdf"))
              init_state = inr text
            /\ blank text = true)).
Proof.
  apply (convert_auto_failure_is_pypdf2 the_world (lit "docs/scan.pdf") init_state
           (BackendFailure (lit "PyPDF2") (lit "EOF marker not found")));
    reflexivity.
Defined.

(** X12 on the report, in verbose mode. *)
Lemma main_prints_report :
  exists st',
    main the_world (cli_args "docs/report.pdf" None "auto" false true) init_state
      = (inr tt, st')
    /\ stdout st' =
         [lit "Converting single PDF: docs/report.pdf";
          newline ++ rule; lit "EXTRACTED TEXT:"; rule;
          lit "Title" ++ newline ++ lit "End"]
    /\ stderr st' = []
    /\ files st' = [].
Proof.
  pose proof (main_prints_text_of_single_file the_world
                (cli_args "docs/report.pdf" None "auto" false true) init_state
                (lit "Title" ++ newline ++ lit "End")) as H.
  by_computation H. destruct H as (st' & Hrun & Hout & Herr & Hfiles).
  exists st'. repeat split; assumption.
Defined.

(** X13 on the report, converted with PyPDF2 into [report.txt]. *)
Lemma main_writes_report :
  exists st',
    main the_world
      (cli_args "docs/report.pdf" (Some "report.txt"%string) "pypdf2" false false)
      init_state = (inr tt, st')
    /\ files st' =
         [(lit "report.txt", lit "Title" ++ newline ++ newline ++ lit "End")]
    /\ stdout st' = [check_mark ++ lit " Successfully converted to: report.txt"]
    /\ stderr st' = [].
Proof.
  pose proof (main_writes_output_of_single_file the_world
                (cli_args "docs/report.pdf" (Some "report.txt"%string) "pypdf2"
                   false false)
                init_state (lit "report.txt")
                (lit "Title" ++ newline ++ newline ++ lit "End")) as H.
  by_computation H. destruct H as (st' & Hrun & Hfiles & _ & Hout & Herr).
  exists st'. repeat split; assumption.
Defined.

(** X14 on the corrupt file, and on the report written to a full disk: the
    output file is left empty. *)
Lemma main_reports_broken :
  (exists st',
     main the_world (cli_args "docs/broken.pdf" None "auto" false false) init_state
       = (inl (SystemExit 1), st')
     /\ stderr st' =
          [cross_mark ++ lit " Error: PyPDF2 extraction failed: EOF marker not found"]
     /\ files st' = []
     /\ stdout st' = [])
  /\ (exists st',
        main full_disk_world
          (cli_args "docs/report.pdf" (Some "report.txt"%string) "auto" false false)
          init_state = (inl (SystemExit 1), st')
        /\ stderr st' = [cross_mark ++ lit " Error: No space left on device"]
        /\ files st' = [(lit "report.txt", [])]
        /\ stdout st' = []).
Proof.
  split.
  - pose proof (main_reports_failure_of_single_file the_world
                  (cli_args "docs/broken.pdf" None "auto" false false) init_state
                  (lit "PyPDF2 extraction failed: EOF marker not found") None) as H.
    by_computation H.
    destruct H as (st' & Hrun & Herr & Hfiles & Hout).
    { left. exists (BackendFailure (lit "PyPDF2") (lit "EOF marker not found")).
      repeat split. }
    exists st'. repeat split; assumption.
  - pose proof (main_reports_failure_of_single_file full_disk_world
                  (cli_args "docs/report.pdf" (Some "report.txt"%string) "auto"
                     false false)
                  init_state (lit "No space left on device")
                  (Some (lit "report.txt", []))) as H.
    by_computation H.
    destruct H as (st' & Hrun & Herr & Hfiles & Hout).
    { right. exists (lit "Title" ++ newline ++ lit "End"), (lit "report.txt").
      repeat split. }
    exists st'. repeat split; assumption.
Defined.

(** X15 on the directory [docs], in verbose mode: one success, two errors,
    each error listed. *)
Lemma main_summary_of_docs :
  exists st',
    main the_world (cli_args "docs" (Some "out"%string) "auto" false true) init_state
      = (inr tt, st')
    /\ stdout st' =
         [lit "Found 3 PDF files";
          newline ++ check_mark ++ lit " Successfully converted: 1/3";
          cross_mark ++ lit " Failed: 2";
          newline ++ lit "Errors:";
          lit "  - docs/scan.pdf: PyPDF2 extraction failed: EOF marker not found";
          lit "  - docs/broken.pdf: PyPDF2 extraction failed: EOF marker not found"]
    /\ stderr st' =
         [lit "Converting PDFs: 0/3"; lit "Converting PDFs: 1/3";
          lit "Converting PDFs: 2/3"; lit "Converting PDFs: 3/3"; newline]
    /\ files st' = [(lit "out/report.txt", lit "Title" ++ newline ++ lit "End")].
Proof.
  pose proof (main_directory_state the_world
                (cli_args "docs" (Some "out"%string) "auto" false true) init_state
                (lit "docs/report.pdf") [lit "docs/scan.pdf"; lit "docs/broken.pdf"])
    as H.
  by_computation H. destruct H as (st' & Hrun & Hout & Herr & Hfiles & _).
  exists st'. repeat split; assumption.
Defined.

(** X16 on the empty directory. *)
Lemma main_on_empty_directory :
  main the_world (cli_args "empty" None "auto" true false) init_state =
    (inl (SystemExit 0), add_stdout [lit "No PDF files found in empty"] init_state).
Proof.
  pose proof (main_finds_no_pdf the_world
                (cli_args "empty" None "auto" true false) init_state) as H.
  by_computation H. exact H.
Defined.

(** X17 on the directory [docs] of a read-only file system. *)
Lemma main_on_read_only_file_system :
  exit_status read_only_world
    (cli_args "docs" (Some "out"%string) "auto" true false) init_state = 1%N
  /\ calls (snd (main_command read_only_world
                   (cli_args "docs" (Some "out"%string) "auto" true false)
                   init_state)) = []
  /\ stdout (snd (main_command read_only_world
                    (cli_args "docs" (Some "out"%string) "auto" true false)
                    init_state)) = [lit "Found 4 PDF files"].
Proof.
  pose proof (main_stops_when_output_dir_cannot_be_made read_only_world
                (cli_args "docs" (Some "out"%string) "auto" true false) init_state
                (lit "docs/report.pdf")
                [lit "docs/scan.pdf"; lit "docs/broken.pdf"; lit "docs/old/report.pdf"]
                (lit "out") (lit "Read-only file system")) as H.
  by_computation H. destruct H as [_ Hcmd].
  unfold exit_status. rewrite Hcmd. repeat split.
Defined.

(** X18 on an empty [-o]. *)
Lemma main_with_empty_output :
  main the_world (cli_args "docs/report.pdf" (Some ""%string) "auto" false false)
    init_state =
  main the_world (cli_args "docs/report.pdf" None "auto" false false) init_state.
Proof.
  pose proof (main_ignores_empty_output the_world
                (cli_args "docs/report.pdf" (Some ""%string) "auto" false false)
                init_state) as H.
  by_computation H. exact H.
Defined.

Section ErrorListing.
Context {Path : Type} {pathlib : Pathlib Path}.
Variable w : World Path.

Lemma error_lines_count (items : dict entry) :
  Forall reportable (values items) ->
  List.length (error_lines items) = count_status (lit "error") (values items).
Proof.
  induction items as [|[path r] rest IH]; intros H; [reflexivity|].
  inversion H as [|? ? Hr Hrest]; subst.
  change (error_lines ((path, r) :: rest)) with
    ((if has_status (lit "error") r
      then match dict_get (lit "error") r with
           | Some msg => [lit "  - " ++ path ++ lit ": " ++ msg]
           | None => []
           end
      else []) ++ error_lines rest).
  change (count_status (lit "error") (values ((path, r) :: rest))) with
    (List.length (if has_status (lit "error") r
                  then r :: filter (has_status (lit "error")) (values rest)
                  else filter (has_status (lit "error")) (values rest))).
  pose proof (IH Hrest) as E. unfold count_status in E.
  rewrite length_app.
  assert (Hcase : has_status (lit "error") r = false
                  \/ (has_status (lit "error") r = true
                      /\ exists msg, dict_get (lit "error") r = Some msg)).
  { unfold has_status. destruct Hr as [Hs|[Hs Hm]]; rewrite Hs;
      [left | right; split; [|exact Hm]]; reflexivity. }
  destruct Hcase as [->|[-> [msg ->]]]; cbn [List.length Nat.add];
    [exact E | f_equal; exact E].
Qed.

(** X19.  For every report of [batch_convert], the verbose listing of
    [main] has exactly as many lines as the "Failed" count: every entry in
    error carries its message, so none is skipped, and no entry marked
    ['success'] is listed. *)
Theorem verbose_listing_matches_failed_count
    (self : PDFConverter) (output_dir : option Path) (paths : list Path)
    (st : state Path) :
  exists report st',
    batch_convert w self paths output_dir st = (inr report, st')
    /\ List.length (error_lines report) = count_status (lit "error") (values report)
    /\ (forall st0 : state Path,
          echo_errors report st0 = (inr tt, add_stdout (error_lines report) st0)).
Proof.
  destruct (batch_convert_state w self output_dir paths st) as (st' & Hrun & _).
  assert (Hrep : Forall reportable
                   (values (batch_report w self output_dir paths [])))
    by (apply batch_report_reportable; constructor).
  exists (batch_report w self output_dir paths []), st'.
  split; [exact Hrun|]. split.
  - now apply error_lines_count.
  - intros st0. now apply echo_errors_state.
Qed.
End ErrorListing.

(* ===================================================================== *)
(** * The preview kept in the report *)
(* ===================================================================== *)

Lemma preview_cases (text : str) :
  preview text =
    if List.length text <=? 200 then text else firstn 200 text ++ lit "...".
Proof.
  unfold preview.
  destruct (200 <? List.length text) eqn:E1;
    destruct (List.length text <=? 200) eqn:E2; try reflexivity.
  - apply Nat.ltb_lt in E1. apply Nat.leb_le in E2. lia.
  - apply Nat.ltb_ge in E1. apply Nat.leb_gt in E2. lia.
Qed.

Section PreviewEntry.
Context {Path : Type} {pathlib : Pathlib Path}.
Variable w : World Path.

(** X1.  In a batch without an output directory, over paths with pairwise
    distinct strings, the entry of an input that converts is marked
    ['success'] and keeps under ['text'] the converted text itself when it
    has at most 200 code points, and otherwise its first 200 code points
    followed by three dots: never more than 203 code points. *)
Theorem batch_success_entry_keeps_preview
    (self : PDFConverter) (paths : list Path) (p : Path) (text : str)
    (st : state Path) :
  NoDup (map str_path paths) ->
  In p paths ->
  result (convert w self p) st = inr text ->
  exists report st',
    batch_convert w self paths None st = (inr report, st')
    /\ dict_get (str_path p) report =
         Some [(lit "status", lit "success");
               (lit "text",
                if List.length text <=? 200 then text
                else firstn 200 text ++ lit "...")]
    /\ List.length (if List.length text <=? 200 then text
                    else firstn 200 text ++ lit "...") <= 203.
Proof.
  intros Hnd Hin Hres.
  destruct (batch_convert_run w self None paths st) as (st' & Hrun & _).
  exists (batch_report w self None paths []), st'.
  split; [exact Hrun|]. split.
  - rewrite (batch_report_get_distinct w self None paths p Hnd Hin).
    unfold batch_entry.
    rewrite <- (convert_result_state w self p st init_state), Hres.
    unfold success_text. now rewrite preview_cases.
  - rewrite <- preview_cases. apply preview_bounded.
Qed.
End PreviewEntry.

(** X1 on the report, and the preview of a text of 250 code points. *)
Lemma preview_of_report :
  exists report st',
    batch_convert the_world auto
      [lit "docs/report.pdf"; lit "docs/broken.pdf"] None init_state
      = (inr report, st')
    /\ dict_get (lit "docs/report.pdf") report =
         Some [(lit "status", lit "success");
               (lit "text", lit "Title" ++ newline ++ lit "End")].
Proof.
  pose proof (batch_success_entry_keeps_preview the_world auto
                [lit "docs/report.pdf"; lit "docs/broken.pdf"]
                (lit "docs/report.pdf") (lit "Title" ++ newline ++ lit "End")
                init_state) as H.
  assert (Hnd : NoDup (map str_path [lit "docs/report.pdf"; lit "docs/broken.pdf"]))
    by distinct_strings.
  specialize (H Hnd (or_introl eq_refl)). by_computation H.
  destruct H as (report & st' & Hrun & Hget & _).
  exists report, st'. split; [exact Hrun | exact Hget].
Defined.

Example preview_of_long_text :
  preview (repeat 97%N 250) = repeat 97%N 200 ++ lit "..."
  /\ preview (repeat 97%N 200) = repeat 97%N 200.
Proof. split; reflexivity. Qed.
